(** * ICP-10111 I2C example ([software/examples/c/main/main.c])

    A shallow embedding of the example program: the C integer and
    single-precision arithmetic of the two conversion steps, the system
    calls as a state monad over an explicit world, and [main] with its
    polling loop.  The definitions come first, the results after them. *)

From Stdlib Require Import ZArith Lia List Bool QArith Qabs Qpower Qfield.
From Stdlib Require Import Strings.String Strings.Ascii Strings.Byte.
From Stdlib Require Import Floats.SpecFloat.
From stdpp Require Import base option gmap.
Import ListNotations.

Local Open Scope Z_scope.

(** ** C integer types *)

Module CInt.

(** Two's complement wrap-around to a signed [w]-bit integer. *)
Definition wrap_signed (w x : Z) : Z :=
  (x + 2 ^ (w - 1)) mod 2 ^ w - 2 ^ (w - 1).

(** [int] is 32 bits wide on the Linux hosts the example targets. *)
Definition to_int (x : Z) : Z := wrap_signed 32 x.
Definition to_uint32 (x : Z) : Z := x mod 2 ^ 32.
Definition to_uint16 (x : Z) : Z := x mod 2 ^ 16.

(** A [uint8_t] operand, promoted to [int]. *)
Definition of_byte (b : byte) : Z := Z.of_N (Byte.to_N b).

(** [a << n] and [a | b] on [int] operands. *)
Definition shl (a n : Z) : Z := to_int (Z.shiftl a n).
Definition or (a b : Z) : Z := Z.lor a b.

End CInt.

(** ** Single precision ([float]) *)

(** [float] is IEEE 754 binary32, and an expression whose operands are all
    [float] is evaluated in binary32 ([FLT_EVAL_METHOD] 0, as on the ARM and
    x86-64 Linux hosts the example targets).  The operations are those of
    the Standard Library's [SpecFloat], at 24 bits of precision. *)
Module F32.

Definition prec : Z := 24.
Definition emax : Z := 128.

(** [(float) n] for an integer [n]: round to nearest, ties to even. *)
Definition of_Z (n : Z) : spec_float := binary_normalize prec emax n 0 false.

Definition div : spec_float -> spec_float -> spec_float := SFdiv prec emax.
Definition sub : spec_float -> spec_float -> spec_float := SFsub prec emax.

(** The literals [100.0f] and [40.0f]. *)
Definition c100 : spec_float := of_Z 100.
Definition c40 : spec_float := of_Z 40.

(** Neither a NaN nor an infinity. *)
Definition is_finite (f : spec_float) : bool :=
  match f with
  | S754_zero _ | S754_finite _ _ _ => true
  | S754_infinity _ | S754_nan => false
  end.

(** The rational number a finite float stands for. *)
Definition to_Q (f : spec_float) : Q :=
  match f with
  | S754_finite s m e =>
      let v := (inject_Z (Zpos m) * Qpower (2 # 1) e)%Q in
      if s then Qopp v else v
  | _ => 0%Q
  end.

(** Half a unit in the last place of a finite non-zero float. *)
Definition half_ulp (f : spec_float) : Q :=
  match f with
  | S754_finite _ _ e => Qpower (2 # 1) (e - 1)
  | _ => 0%Q
  end.

End F32.

(** ** The world outside the program *)

(** Locations of [float] objects ([&pressure], [&temperature]). *)
Abbreviation loc := positive.

Inductive stream := stdout | stderr.

(** Arguments of a [printf] call.  A [float] argument is promoted to
    [double], which is exact; [None] stands for an object that was never
    written.  [AErrno] is the text of [strerror(errno)]. *)
Inductive arg :=
| AInt (n : Z)
| ADouble (v : option spec_float)
| AStr (s : string)
| AErrno.

Inductive event :=
| EOpen (path : string)
| EIoctl (fd addr : Z)
| EClose (fd : Z)
| EWrite (fd : Z) (buf : list byte)
| ERead (fd : Z) (count : nat)
| EUsleep (usec : Z)
| ESleep (sec : Z)
| EPrint (st : stream) (fmt : string) (args : list arg).

(** What the kernel and the bus answer.  The [k]-th [write] returns
    [env_write k]; the [k]-th [read] fails with -1 ([None]) or delivers
    bytes. *)
Record env := {
  env_open : string -> Z;
  env_ioctl : Z -> Z -> Z;
  env_write : nat -> Z;
  env_read : nat -> option (list byte);
}.

Record world := {
  w_nwrite : nat;                      (* [write] calls so far *)
  w_nread : nat;                       (* [read] calls so far *)
  w_mem : gmap positive spec_float;    (* the [float] objects *)
  w_stores : list (positive * spec_float);  (* log of stores through [float*] *)
  w_trace : list event;                (* observable events, oldest first *)
}.

Definition M (A : Type) : Type := world -> A * world.

#[global] Instance M_ret : MRet M := fun A x w => (x, w).
#[global] Instance M_bind : MBind M :=
  fun A B f m w => let '(x, w') := m w in f x w'.

Definition emit (e : event) : M unit := fun w =>
  (tt, {| w_nwrite := w_nwrite w; w_nread := w_nread w; w_mem := w_mem w;
          w_stores := w_stores w; w_trace := w_trace w ++ [e] |}).

Definition store (p : loc) (v : spec_float) : M unit := fun w =>
  (tt, {| w_nwrite := w_nwrite w; w_nread := w_nread w;
          w_mem := <[p := v]> (w_mem w);
          w_stores := w_stores w ++ [(p, v)]; w_trace := w_trace w |}).

Definition load (p : loc) : M (option spec_float) := fun w => (w_mem w !! p, w).

Definition printf (fmt : string) (args : list arg) : M unit :=
  emit (EPrint stdout fmt args).
Definition fprintf (st : stream) (fmt : string) (args : list arg) : M unit :=
  emit (EPrint st fmt args).

Definition nl : string := String "010"%char EmptyString.

Section Program.

Variable E : env.

(** *** System calls *)

Definition sys_open (path : string) : M Z :=
  _ ← emit (EOpen path); mret (env_open E path).

Definition sys_ioctl (fd addr : Z) : M Z :=
  _ ← emit (EIoctl fd addr); mret (env_ioctl E fd addr).

Definition sys_close (fd : Z) : M unit := emit (EClose fd).

Definition sys_write (fd : Z) (buf : list byte) : M Z := fun w =>
  (env_write E (w_nwrite w),
   {| w_nwrite := S (w_nwrite w); w_nread := w_nread w; w_mem := w_mem w;
      w_stores := w_stores w; w_trace := w_trace w ++ [EWrite fd buf] |}).

(** [read(fd, buf, count)]: the return value and the bytes placed in
    [buf]; at most [count] bytes are delivered. *)
Definition sys_read (fd : Z) (count : nat) : M (Z * list byte) := fun w =>
  (match env_read E (w_nread w) with
   | None => (-1, [])
   | Some bs => (Z.of_nat (length (firstn count bs)), firstn count bs)
   end,
   {| w_nwrite := w_nwrite w; w_nread := S (w_nread w); w_mem := w_mem w;
      w_stores := w_stores w; w_trace := w_trace w ++ [ERead fd count] |}).

Definition usleep (usec : Z) : M unit := emit (EUsleep usec).
Definition sleep (sec : Z) : M unit := emit (ESleep sec).

(** *** Constants of the source *)

Definition I2C_BUS : string := "/dev/i2c-1".
Definition MODULE_I2C_ADDR : Z := 0x48.
Definition EXIT_SUCCESS : Z := 0.
Definition EXIT_FAILURE : Z := 1.

(** [ICP10111_I2C_ADDR] is used by the source but defined nowhere in it. *)
Variable ICP10111_I2C_ADDR : Z.

(** *** [init_i2c] *)

Definition init_i2c (device : string) (addr : Z) : M Z :=
  fd ← sys_open device;
  if fd <? 0 then
    _ ← fprintf stderr ("Error opening I2C device %s: %s" ++ nl)
          [AStr device; AErrno];
    mret (-1)
  else
    r ← sys_ioctl fd addr;
    if r <? 0 then
      _ ← fprintf stderr ("Error setting I2C slave address 0x%02X: %s" ++ nl)
            [AInt addr; AErrno];
      _ ← sys_close fd;
      mret (-1)
    else mret fd.

(** *** The conversion steps *)

(** [data[i]], promoted to [int]. *)
Definition at_ (data : list byte) (i : nat) : Z :=
  CInt.of_byte (nth i data x00).

(** [uint32_t raw_pressure = (data[0] << 16) | (data[1] << 8) | data[2];] *)
Definition raw_pressure (data : list byte) : Z :=
  CInt.to_uint32
    (CInt.or (CInt.or (CInt.shl (at_ data 0) 16) (CInt.shl (at_ data 1) 8))
             (at_ data 2)).

(** [(float)raw_pressure / 100.0f] *)
Definition decode_pressure (data : list byte) : spec_float :=
  F32.div (F32.of_Z (raw_pressure data)) F32.c100.

(** [uint16_t raw_temp = (data[0] << 8) | data[1];] *)
Definition raw_temp (data : list byte) : Z :=
  CInt.to_uint16 (CInt.or (CInt.shl (at_ data 0) 8) (at_ data 1)).

(** [(float)raw_temp / 100.0f - 40.0f] *)
Definition decode_temperature (data : list byte) : spec_float :=
  F32.sub (F32.div (F32.of_Z (raw_temp data)) F32.c100) F32.c40.

(** *** [read_pressure] and [read_temperature] *)

Definition read_pressure (fd : Z) (pressure : loc) : M Z :=
  let cmd := [x48; xa3; x00] in
  n ← sys_write fd cmd;
  if negb (n =? 3) then
    _ ← fprintf stderr ("Error sending pressure command: %s" ++ nl) [AErrno];
    mret (-1)
  else
    _ ← usleep 100000;
    '(n, data) ← sys_read fd 9;
    if negb (n =? 9) then
      _ ← fprintf stderr ("Error reading pressure data: %s" ++ nl) [AErrno];
      mret (-1)
    else
      _ ← store pressure (decode_pressure data);
      mret 0.

Definition read_temperature (fd : Z) (temperature : loc) : M Z :=
  let cmd := [x60; x9c; x00] in
  n ← sys_write fd cmd;
  if negb (n =? 3) then
    _ ← fprintf stderr ("Error sending temperature command: %s" ++ nl) [AErrno];
    mret (-1)
  else
    _ ← usleep 50000;
    '(n, data) ← sys_read fd 6;
    if negb (n =? 6) then
      _ ← fprintf stderr ("Error reading temperature data: %s" ++ nl) [AErrno];
      mret (-1)
    else
      _ ← store temperature (decode_temperature data);
      mret 0.

(** *** [print_sensor_info] *)

Definition rule : string := "========================================".

Definition print_sensor_info : M unit :=
  _ ← printf (rule ++ nl) [];
  _ ← printf ("  ICP-10111 Barometric Pressure Sensor" ++ nl) [];
  _ ← printf (rule ++ nl) [];
  _ ← printf ("I2C Address: 0x%02X" ++ nl) [AInt ICP10111_I2C_ADDR];
  _ ← printf ("I2C Bus: %s" ++ nl) [AStr I2C_BUS];
  _ ← printf ("Pressure Range: 300-1250 hPa" ++ nl) [];
  _ ← printf ("Accuracy: ±0.4 hPa @ 25°C" ++ nl) [];
  printf (rule ++ nl ++ nl) [].

(** *** [main] *)

(** The objects [pressure] and [temperature] of [main]. *)
Definition pressure : loc := 1%positive.
Definition temperature : loc := 2%positive.

(** One pass through the body of the [while (1)] loop; the state carried
    round the loop is [sample_count]. *)
Definition loop_body (fd : Z) (sample_count : Z) : M Z :=
  let sample_count := CInt.to_int (sample_count + 1) in
  rp ← read_pressure fd pressure;
  _ ← (if rp =? 0 then
         rt ← read_temperature fd temperature;
         if rt =? 0 then
           p ← load pressure;
           t ← load temperature;
           printf ("%6d | %13.2f | %15.2f" ++ nl)
             [AInt sample_count; ADouble p; ADouble t]
         else
           p ← load pressure;
           printf ("%6d | %13.2f | %15s" ++ nl)
             [AInt sample_count; ADouble p; AStr "Error"]
       else
         printf ("%6d | %13s | %15s" ++ nl)
           [AInt sample_count; AStr "Error"; AStr "Error"]);
  _ ← sleep 1;
  mret sample_count.

(** [while (cond) body], run for at most [fuel] passes: [Some s] when the
    condition was found false in state [s], [None] when the loop is still
    running after [fuel] passes. *)
Fixpoint while_ {S : Type} (fuel : nat) (cond : S -> bool)
    (body : S -> M S) (s : S) : M (option S) :=
  if cond s then
    match fuel with
    | O => mret None
    | Datatypes.S fuel' => s' ← body s; while_ fuel' cond body s'
    end
  else mret (Some s).

(** [main], with the loop run for at most [fuel] passes: the exit status,
    or [None] when the program is still running. *)
Definition main (fuel : nat) : M (option Z) :=
  let sample_count := 0 in
  _ ← print_sensor_info;
  fd ← init_i2c I2C_BUS ICP10111_I2C_ADDR;
  if fd <? 0 then
    _ ← fprintf stderr ("Failed to initialize I2C communication" ++ nl) [];
    mret (Some EXIT_FAILURE)
  else
    _ ← printf ("Starting continuous measurement..." ++ nl) [];
    _ ← printf ("Press Ctrl+C to stop" ++ nl ++ nl) [];
    _ ← printf ("Sample | Pressure (hPa) | Temperature (°C)" ++ nl) [];
    _ ← printf ("-------|----------------|------------------" ++ nl) [];
    r ← while_ fuel (fun _ => negb (1 =? 0)) (loop_body fd) sample_count;
    match r with
    | None => mret None
    | Some _ =>
        _ ← sys_close fd;
        mret (Some EXIT_SUCCESS)
    end.

End Program.

(** ** Reading the trace *)

(** The world a process starts in. *)
Definition world0 : world :=
  {| w_nwrite := 0; w_nread := 0; w_mem := ∅; w_stores := []; w_trace := [] |}.

(** A table row is a [printf] to [stdout] whose format opens with the
    sample-index column; its three arguments are the three columns. *)
Definition row_cells (e : event) : option (arg * arg * arg) :=
  match e with
  | EPrint stdout fmt [a; b; c] =>
      if String.prefix "%6d | " fmt then Some (a, b, c) else None
  | _ => None
  end.

Definition is_row (e : event) : bool :=
  match row_cells e with Some _ => true | None => false end.

Definition rows (t : list event) : list event := List.filter is_row t.

Definition is_stdout (e : event) : bool :=
  match e with EPrint stdout _ _ => true | _ => false end.

Definition is_close (e : event) : bool :=
  match e with EClose _ => true | _ => false end.

Definition is_write_of (cmd : list byte) (e : event) : bool :=
  match e with
  | EWrite _ buf => bool_decide (map Byte.to_N buf = map Byte.to_N cmd)
  | _ => false
  end.

Definition is_write (e : event) : bool :=
  match e with EWrite _ _ => true | _ => false end.

(** How often the command [cmd] was sent. *)
Definition count_cmd (cmd : list byte) (t : list event) : nat :=
  length (List.filter (is_write_of cmd) t).

(** Events that show no table row, close no handle and print nothing on
    [stdout]. *)
Definition quiet (evs : list event) : Prop :=
  rows evs = [] /\ List.filter is_close evs = [] /\ List.filter is_stdout evs = [].

(** What [print_sensor_info] prints. *)
Definition banner (addr : Z) : list event :=
  w_trace (snd (print_sensor_info addr world0)).

(** ** Outcomes of the bus transfers *)

(** The next [write] does not take the three command bytes. *)
Definition short_write (E : env) (w : world) : bool :=
  negb (env_write E (w_nwrite w) =? 3).

(** The next [read] fails or delivers fewer than [count] bytes. *)
Definition short_read (E : env) (w : world) (count : nat) : bool :=
  match env_read E (w_nread w) with
  | None => true
  | Some bs => (length bs <? count)%nat
  end.

Definition io_fails (E : env) (w : world) (count : nat) : bool :=
  short_write E w || short_read E w count.

(** The bytes the next [read] of [count] bytes places in the buffer. *)
Definition delivered (E : env) (w : world) (count : nat) : list byte :=
  match env_read E (w_nread w) with
  | None => []
  | Some bs => firstn count bs
  end.

(** The common shape of [read_pressure] and [read_temperature]. *)
Definition read_sample (cmd : list byte) (delay : Z) (count : nat)
    (msg_write msg_read : string) (decode : list byte -> spec_float)
    (E : env) (fd : Z) (p : loc) : M Z :=
  n ← sys_write E fd cmd;
  if negb (n =? 3) then
    _ ← fprintf stderr msg_write [AErrno];
    mret (-1)
  else
    _ ← usleep delay;
    '(n, data) ← sys_read E fd count;
    if negb (n =? Z.of_nat count) then
      _ ← fprintf stderr msg_read [AErrno];
      mret (-1)
    else
      _ ← store p (decode data);
      mret 0.

Definition pressure_cmd : list byte := [x48; xa3; x00].
Definition temperature_cmd : list byte := [x60; x9c; x00].

(** ** Sample environments *)

(** No bus: [open] fails. *)
Definition env_no_bus : env :=
  {| env_open := fun _ => -1; env_ioctl := fun _ _ => 0;
     env_write := fun _ => 3; env_read := fun _ => None |}.

(** A bus that takes every command and answers every [read] with [bs]. *)
Definition env_steady (handle : Z) (bs : list byte) : env :=
  {| env_open := fun _ => handle; env_ioctl := fun _ _ => 0;
     env_write := fun _ => 3; env_read := fun _ => Some bs |}.

(** A world with some history behind it. *)
Definition world_later : world :=
  {| w_nwrite := 7; w_nread := 5;
     w_mem := <[1%positive := S754_nan]> ∅;
     w_stores := [(1%positive, S754_nan)];
     w_trace := [ESleep 1] |}.

Definition sample_bytes : list byte :=
  [x0f; x42; x40; x11; x22; x33; x44; x55; x66].
Definition sample_bytes' : list byte :=
  [x0f; x42; xaa; xbb; xcc; xdd; xee; xff; x00].

(** ** Rounding, as the proofs see it *)

(** [located a b q l]: the pair [(q, l)] places the rational [a / b]
    relative to the integers [q] and [q + 1] and to their midpoint. *)
Definition located (a b q : Z) (l : location) : Prop :=
  match l with
  | loc_Exact => a = b * q
  | loc_Inexact c =>
      b * q < a < b * q + b /\
      match c with
      | Lt => 2 * a < 2 * (b * q) + b
      | Eq => 2 * a = 2 * (b * q) + b
      | Gt => 2 * (b * q) + b < 2 * a
      end
  end.

(** The second half of [binary_round_aux]: renormalise the rounded
    mantissa and check for overflow. *)
Definition round_finish (s : bool) (m1 e : Z) : spec_float :=
  let '(mrs, e') := shr_fexp 24 128 m1 e loc_Exact in
  match shr_m mrs with
  | Z0 => S754_zero s
  | Zpos m => if e' <=? 128 - 24 then S754_finite s m e' else S754_infinity s
  | Zneg _ => S754_nan
  end.

(** The values a [uint8_t] takes. *)
Definition byte_values : list Z := map Z.of_nat (seq 0 256).

(** What is checked of the temperature conversion at each raw value. *)
Definition temperature_check (n : Z) : bool :=
  let v := F32.sub (F32.div (F32.of_Z n) F32.c100) F32.c40 in
  F32.is_finite v && valid_binary 24 128 v &&
  Qle_bool (Qabs (F32.to_Q v - ((n # 100) - 40))) (1 # 32768).

Definition sample_bytes3 : list byte :=
  [x0f; x42; x40; xbb; xcc; xdd; xee; xff; x00].

(** ** More ways to read the trace *)

Definition is_open (e : event) : bool :=
  match e with EOpen _ => true | _ => false end.

Definition is_ioctl (e : event) : bool :=
  match e with EIoctl _ _ => true | _ => false end.

Definition is_sleep (e : event) : bool :=
  match e with ESleep _ => true | _ => false end.

(** The sample index a row shows. *)
Definition row_index (e : event) : option Z :=
  match row_cells e with
  | Some (AInt n, _, _) => Some n
  | _ => None
  end.

(** A cell that does not show an object that was never written. *)
Definition cell_written (a : arg) : bool :=
  match a with ADouble None => false | _ => true end.

Definition row_written (e : event) : bool :=
  match row_cells e with
  | Some (_, p, t) => cell_written p && cell_written t
  | None => true
  end.

(** The two lines [main] prints before the table and the two that head it. *)
Definition table_header : list event :=
  [EPrint stdout ("Starting continuous measurement..." ++ nl) [];
   EPrint stdout ("Press Ctrl+C to stop" ++ nl ++ nl) [];
   EPrint stdout ("Sample | Pressure (hPa) | Temperature (°C)" ++ nl) [];
   EPrint stdout ("-------|----------------|------------------" ++ nl) []].

(** The events of one transfer, by its outcome. *)
Definition transfer_trace (cmd : list byte) (delay : Z) (count : nat)
    (msg_write msg_read : string) (E : env) (fd : Z) (w : world)
    : list event :=
  if short_write E w then
    [EWrite fd cmd; EPrint stderr msg_write [AErrno]]
  else if short_read E w count then
    [EWrite fd cmd; EUsleep delay; ERead fd count;
     EPrint stderr msg_read [AErrno]]
  else
    [EWrite fd cmd; EUsleep delay; ERead fd count].

Definition pressure_trace : env -> Z -> world -> list event :=
  transfer_trace pressure_cmd 100000 9
    ("Error sending pressure command: %s" ++ nl)
    ("Error reading pressure data: %s" ++ nl).

Definition temperature_trace : env -> Z -> world -> list event :=
  transfer_trace temperature_cmd 50000 6
    ("Error sending temperature command: %s" ++ nl)
    ("Error reading temperature data: %s" ++ nl).

(** The temperature conversion of a raw value. *)
Definition temperature_of (n : Z) : spec_float :=
  F32.sub (F32.div (F32.of_Z n) F32.c100) F32.c40.

(** What is checked of the temperature conversion at two raw values next
    to each other: the second converts to more than the first. *)
Definition temperature_step_check (n : Z) : bool :=
  (n =? 65535) ||
  negb (Qle_bool (F32.to_Q (temperature_of (n + 1)))
                 (F32.to_Q (temperature_of n))).

(** What is checked of the temperature conversion at a whole number of
    degrees. *)
Definition temperature_whole_check (k : Z) : bool :=
  Qeq_bool (F32.to_Q (temperature_of (100 * k))) (inject_Z (k - 40)).

(** What the events of the loop add up to: [stdout] holds the rows and
    nothing else, no row shows an unwritten object, every row is followed
    by one [sleep(1)], and there is one pressure command per row and at most
    as many temperature commands. *)
Definition loop_facts (evs : list event) : Prop :=
  List.filter is_stdout evs = rows evs /\
  forallb row_written (rows evs) = true /\
  List.filter is_sleep evs = repeat (ESleep 1) (length (rows evs)) /\
  count_cmd pressure_cmd evs = length (rows evs) /\
  (count_cmd temperature_cmd evs <= count_cmd pressure_cmd evs)%nat.

(** What a run leaves of the [float] objects: only [pressure] and
    [temperature] are stored to. *)
Definition only_locals (w w' : world) : Prop :=
  (forall q : loc, q <> pressure -> q <> temperature ->
     w_mem w' !! q = w_mem w !! q) /\
  exists st, w_stores w' = w_stores w ++ st /\
    Forall (fun x : loc * spec_float =>
              fst x = pressure \/ fst x = temperature) st.

(** [sample_count] after [k] passes of the loop: [k] times
    [sample_count++] from 0. *)
Definition sample_count_after (k : nat) : Z :=
  Nat.iter k (fun sc => CInt.to_int (sc + 1)) 0.

(** The world in which [main] enters its loop, from the world [init_i2c]
    left: the four lines before the table are out. *)
Definition loop_entry (w : world) : world :=
  snd ((_ ← printf ("Starting continuous measurement..." ++ nl) [];
        _ ← printf ("Press Ctrl+C to stop" ++ nl ++ nl) [];
        _ ← printf ("Sample | Pressure (hPa) | Temperature (°C)" ++ nl) [];
        printf ("-------|----------------|------------------" ++ nl) []) w).

(** * Results *)

(** ** C integers *)

Lemma of_byte_range b : 0 <= CInt.of_byte b < 256.
Proof.
  unfold CInt.of_byte. pose proof (Byte.to_N_bounded b). lia.
Qed.

Lemma to_int_small x : - 2 ^ 31 <= x < 2 ^ 31 -> CInt.to_int x = x.
Proof.
  intros Hx. unfold CInt.to_int, CInt.wrap_signed.
  change (2 ^ (32 - 1)) with (2 ^ 31).
  rewrite Z.mod_small; change (2 ^ 32) with (2 * 2 ^ 31); lia.
Qed.

Lemma lor_shiftl_small hi lo k :
  0 <= k -> 0 <= lo < 2 ^ k -> Z.lor (Z.shiftl hi k) lo = hi * 2 ^ k + lo.
Proof.
  intros Hk Hlo.
  assert (Hland : Z.land (Z.shiftl hi k) lo = 0).
  { apply Z.bits_inj'. intros n Hn.
    rewrite Z.land_spec, Z.bits_0.
    destruct (Z.lt_ge_cases n k) as [Hlt|Hge].
    - rewrite Z.shiftl_spec_low by lia. reflexivity.
    - rewrite <- (Z.mod_small lo (2 ^ k)) by lia.
      rewrite Z.mod_pow2_bits_high by lia. apply andb_false_r. }
  rewrite <- Z.lxor_lor, <- Z.add_nocarry_lxor, Z.shiftl_mul_pow2 by assumption.
  reflexivity.
Qed.

Lemma raw_pressure_big_endian b0 b1 b2 rest :
  raw_pressure (b0 :: b1 :: b2 :: rest) =
  65536 * CInt.of_byte b0 + 256 * CInt.of_byte b1 + CInt.of_byte b2.
Proof.
  unfold raw_pressure, at_, CInt.or, CInt.shl. cbn [nth].
  pose proof (of_byte_range b0). pose proof (of_byte_range b1).
  pose proof (of_byte_range b2).
  rewrite !Z.shiftl_mul_pow2 by lia.
  change (2 ^ 16) with 65536. change (2 ^ 8) with 256.
  rewrite !to_int_small by (change (2 ^ 31) with 2147483648; lia).
  replace (CInt.of_byte b0 * 65536) with (Z.shiftl (CInt.of_byte b0) 16)
    by (rewrite Z.shiftl_mul_pow2 by lia; reflexivity).
  rewrite lor_shiftl_small by (change (2 ^ 16) with 65536; lia).
  change (2 ^ 16) with 65536.
  replace (CInt.of_byte b0 * 65536 + CInt.of_byte b1 * 256)
    with (Z.shiftl (CInt.of_byte b0 * 256 + CInt.of_byte b1) 8)
    by (rewrite Z.shiftl_mul_pow2 by lia; change (2 ^ 8) with 256; ring).
  rewrite lor_shiftl_small by (change (2 ^ 8) with 256; lia).
  change (2 ^ 8) with 256.
  unfold CInt.to_uint32. rewrite Z.mod_small; change (2 ^ 32) with 4294967296; lia.
Qed.

Lemma raw_temp_big_endian b0 b1 rest :
  raw_temp (b0 :: b1 :: rest) = 256 * CInt.of_byte b0 + CInt.of_byte b1.
Proof.
  unfold raw_temp, at_, CInt.or, CInt.shl. cbn [nth].
  pose proof (of_byte_range b0). pose proof (of_byte_range b1).
  rewrite Z.shiftl_mul_pow2 by lia. change (2 ^ 8) with 256.
  rewrite to_int_small by (change (2 ^ 31) with 2147483648; lia).
  replace (CInt.of_byte b0 * 256) with (Z.shiftl (CInt.of_byte b0) 8)
    by (rewrite Z.shiftl_mul_pow2 by lia; reflexivity).
  rewrite lor_shiftl_small by (change (2 ^ 8) with 256; lia).
  change (2 ^ 8) with 256.
  unfold CInt.to_uint16. rewrite Z.mod_small; change (2 ^ 16) with 65536; lia.
Qed.

(** ** Rounding in [binary32] *)

Lemma digits2_pos_log2 p : Zpos (digits2_pos p) = Z.log2 (Zpos p) + 1.
Proof.
  induction p as [p IH|p IH|]; simpl; try reflexivity.
  - rewrite Pos2Z.inj_succ, IH. destruct p; simpl; lia.
  - rewrite Pos2Z.inj_succ, IH. destruct p; simpl; lia.
Qed.

Lemma Zdigits2_bounds d q :
  0 < d -> 2 ^ (d - 1) <= q < 2 ^ d -> Zdigits2 q = d.
Proof.
  intros Hd [Hlo Hhi].
  assert (0 < q) by (pose proof (Z.pow_pos_nonneg 2 (d - 1)); lia).
  destruct q as [|p|p]; try lia. simpl.
  rewrite digits2_pos_log2.
  rewrite (Z.log2_unique (Zpos p) (d - 1)); [lia | lia |].
  replace (Z.succ (d - 1)) with d by lia. lia.
Qed.

Lemma Zdigits2_24_bounds m :
  Zdigits2 (Zpos m) = 24 -> 8388608 <= Zpos m < 16777216.
Proof.
  intros Hd. pose proof (digits2_pos_log2 m) as Hl. cbn [Zdigits2] in Hd.
  destruct (Z.log2_spec (Zpos m) ltac:(lia)) as [H0 H1].
  replace (Z.log2 (Zpos m)) with 23 in * by lia. exact (conj H0 H1).
Qed.

Lemma new_location_located a b :
  0 < b -> Z.even b = true ->
  located a b (fst (Z.div_eucl a b)) (new_location b (snd (Z.div_eucl a b))).
Proof.
  intros Hb Hev. pose proof (Z_div_mod a b ltac:(lia)) as H.
  destruct (Z.div_eucl a b) as [q r]. destruct H as [Ha Hr]. simpl.
  unfold new_location. rewrite Hev. unfold new_location_even.
  destruct (Z.eqb_spec r 0) as [->|Hne]; simpl; [lia|].
  split; [lia|].
  destruct (Z.compare_spec (2 * r) b); lia.
Qed.

Lemma loc_of_record_of_loc m l :
  loc_of_shr_record (shr_record_of_loc m l) = l /\
  shr_m (shr_record_of_loc m l) = m.
Proof. destruct l as [|[]]; split; reflexivity. Qed.

(** One right shift halves the scale and keeps the location. *)
Lemma shr_1_located a b mrs :
  0 <= shr_m mrs -> 0 < b ->
  located a b (shr_m mrs) (loc_of_shr_record mrs) ->
  located a (2 * b) (shr_m (shr_1 mrs)) (loc_of_shr_record (shr_1 mrs)) /\
  (shr_m mrs = 2 * shr_m (shr_1 mrs) \/ shr_m mrs = 2 * shr_m (shr_1 mrs) + 1).
Proof.
  destruct mrs as [m r s]. cbn [shr_m]. intros Hm Hb H.
  destruct m as [|[p|p|]|]; try lia.
  - destruct r, s; cbn in *; lia.
  - assert (Hx : b * (2 * Z.pos p + 1) = 2 * (b * Z.pos p) + b) by ring.
    assert (Hy : 2 * b * Z.pos p = 2 * (b * Z.pos p)) by ring.
    destruct r, s; cbn [shr_1 loc_of_shr_record shr_m located orb] in *;
      rewrite (Pos2Z.inj_xI p) in *; rewrite Hx in H; rewrite Hy; lia.
  - assert (Hx : b * (2 * Z.pos p) = 2 * (b * Z.pos p)) by ring.
    assert (Hy : 2 * b * Z.pos p = 2 * (b * Z.pos p)) by ring.
    destruct r, s; cbn [shr_1 loc_of_shr_record shr_m located orb] in *;
      rewrite (Pos2Z.inj_xO p) in *; rewrite Hx in H; rewrite Hy; lia.
  - destruct r, s; cbn [shr_1 loc_of_shr_record shr_m located orb] in *; lia.
Qed.

(** Rounding to nearest lands within half a unit of [a / b]. *)
Lemma round_nearest_even_located a b q l :
  0 < b -> located a b q l ->
  (round_nearest_even q l = q \/ round_nearest_even q l = q + 1) /\
  Z.abs (2 * a - 2 * b * round_nearest_even q l) <= b.
Proof.
  intros Hb H.
  assert (Hx : 2 * b * (q + 1) = 2 * (b * q) + 2 * b) by ring.
  assert (Hy : 2 * b * q = 2 * (b * q)) by ring.
  destruct l as [|[]]; simpl in *.
  - split; [auto|]. lia.
  - destruct H as [H1 H2]. destruct (Z.even q); split; auto; lia.
  - destruct H as [H1 H2]. split; auto; lia.
  - destruct H as [H1 H2]. split; auto; lia.
Qed.

Lemma binary_round_aux_unfold s q e l :
  binary_round_aux 24 128 s q e l =
  let '(mrs, e') := shr_fexp 24 128 q e l in
  round_finish s (round_nearest_even (shr_m mrs) (loc_of_shr_record mrs)) e'.
Proof. reflexivity. Qed.

Lemma shr_fexp_24 q e l :
  Zdigits2 q = 24 -> -149 <= e ->
  shr_fexp 24 128 q e l = (shr_record_of_loc q l, e).
Proof.
  intros Hd He. unfold shr_fexp. rewrite Hd.
  replace (fexp 24 128 (24 + e) - e) with 0 by (unfold fexp, emin; lia).
  reflexivity.
Qed.

Lemma shr_fexp_25 q e l :
  Zdigits2 q = 25 -> -150 <= e ->
  shr_fexp 24 128 q e l = (shr_1 (shr_record_of_loc q l), e + 1).
Proof.
  intros Hd He. unfold shr_fexp. rewrite Hd.
  replace (fexp 24 128 (25 + e) - e) with 1 by (unfold fexp, emin; lia).
  reflexivity.
Qed.

Lemma round_finish_spec s m1 e :
  2 ^ 23 <= m1 <= 2 ^ 24 -> -149 <= e <= 100 ->
  exists m' e',
    round_finish s m1 e = S754_finite s m' e' /\
    e <= e' <= e + 1 /\ Zdigits2 (Zpos m') = 24 /\
    Zpos m' * 2 ^ (e' - e) = m1.
Proof.
  intros Hm He. unfold round_finish.
  destruct (Z_lt_le_dec m1 (2 ^ 24)) as [Hlt|Hge].
  - assert (Hd : Zdigits2 m1 = 24) by (apply Zdigits2_bounds; lia).
    rewrite shr_fexp_24 by (trivial; lia). cbn [shr_record_of_loc shr_m].
    destruct m1 as [|p|p]; try lia.
    replace (e <=? 128 - 24) with true by (symmetry; apply Z.leb_le; lia).
    exists p, e. replace (e - e) with 0 by lia.
    repeat split; try lia; try exact Hd.
  - assert (m1 = 2 ^ 24) as -> by lia.
    rewrite shr_fexp_25 by (try reflexivity; lia).
    cbn [shr_record_of_loc shr_1 shr_m Z.pow Z.pow_pos Pos.iter Z.mul Pos.mul].
    replace (e + 1 <=? 128 - 24) with true by (symmetry; apply Z.leb_le; lia).
    eexists _, (e + 1). split; [reflexivity|].
    replace (e + 1 - e) with 1 by lia.
    repeat split; try lia; try reflexivity.
Qed.

(** [binary_round_aux] on a quotient of 24 or 25 digits: the result is a
    normal number within half a unit in its last place of [a / b * 2^e]. *)
Lemma binary_round_aux_spec a b s q e l :
  0 < b -> located a b q l -> 2 ^ 23 <= q < 2 ^ 25 -> -149 <= e <= 99 ->
  exists m' e',
    binary_round_aux 24 128 s q e l = S754_finite s m' e' /\
    e <= e' <= e + 2 /\ Zdigits2 (Zpos m') = 24 /\
    Z.abs (2 * a - 2 * b * (Zpos m' * 2 ^ (e' - e))) <= b * 2 ^ (e' - e).
Proof.
  intros Hb Hloc Hq He. rewrite binary_round_aux_unfold.
  destruct (Z_lt_le_dec q (2 ^ 24)) as [Hlt|Hge].
  - rewrite shr_fexp_24 by (try apply Zdigits2_bounds; lia).
    destruct (loc_of_record_of_loc q l) as [-> ->].
    destruct (round_nearest_even_located a b q l Hb Hloc) as [Hm Habs].
    destruct (round_finish_spec s (round_nearest_even q l) e)
      as (m' & e' & -> & He' & Hd & Hv); [lia | lia |].
    exists m', e'. repeat split; try lia; trivial.
    rewrite Hv.
    assert (0 < 2 ^ (e' - e)) by (apply Z.pow_pos_nonneg; lia).
    nia.
  - rewrite shr_fexp_25 by (try apply Zdigits2_bounds; lia).
    destruct (loc_of_record_of_loc q l) as [Hl Hm0].
    destruct (shr_1_located a b (shr_record_of_loc q l)) as [Hloc1 Hpar];
      [lia | lia | rewrite Hl, Hm0; exact Hloc |].
    rewrite Hm0 in Hpar.
    set (mrs1 := shr_1 (shr_record_of_loc q l)) in *.
    destruct (round_nearest_even_located a (2 * b) (shr_m mrs1)
                (loc_of_shr_record mrs1) ltac:(lia) Hloc1) as [Hm Habs].
    destruct (round_finish_spec s
                (round_nearest_even (shr_m mrs1) (loc_of_shr_record mrs1))
                (e + 1)) as (m' & e' & -> & He' & Hd & Hv); [lia | lia |].
    exists m', e'. repeat split; try lia; trivial.
    replace (e' - e) with (Z.succ (e' - (e + 1))) by lia.
    rewrite Z.pow_succ_r by lia.
    assert (0 < 2 ^ (e' - (e + 1))) by (apply Z.pow_pos_nonneg; lia).
    rewrite <- Hv in Habs. nia.
Qed.

Lemma binary_round_aux_canonical s m e :
  Zdigits2 (Zpos m) = 24 -> -149 <= e <= 104 ->
  binary_round_aux 24 128 s (Zpos m) e loc_Exact = S754_finite s m e.
Proof.
  intros Hd He. rewrite binary_round_aux_unfold.
  rewrite shr_fexp_24 by (trivial; lia).
  cbn [shr_record_of_loc shr_m loc_of_shr_record round_nearest_even].
  unfold round_finish. rewrite shr_fexp_24 by (trivial; lia).
  cbn [shr_record_of_loc shr_m].
  replace (e <=? 128 - 24) with true by (symmetry; apply Z.leb_le; lia).
  reflexivity.
Qed.

Lemma iter_xO_pow2 p k : Zpos (Pos.iter xO p k) = Zpos p * 2 ^ Zpos k.
Proof.
  induction k as [|k IH] using Pos.peano_ind.
  - cbn [Pos.iter]. rewrite Pos2Z.inj_xO. change (2 ^ 1) with 2. lia.
  - rewrite Pos.iter_succ, Pos2Z.inj_xO, IH, Pos2Z.inj_succ.
    rewrite Z.pow_succ_r by lia. ring.
Qed.

Lemma shl_align_spec p e e' :
  e' <= e ->
  exists m, shl_align p e e' = (m, e') /\ Zpos m = Zpos p * 2 ^ (e - e').
Proof.
  intros Hle. unfold shl_align.
  destruct (e' - e) as [|k|k] eqn:D; try lia.
  - exists p. replace e' with e by lia. replace (e - e) with 0 by lia.
    split; [reflexivity | lia].
  - exists (Pos.iter xO p k). split; [reflexivity|].
    rewrite iter_xO_pow2. f_equal. f_equal. lia.
Qed.

(** [(float) n] is exact below [2^24]. *)
Lemma of_Z_spec n :
  0 < n < 2 ^ 24 ->
  exists m e,
    F32.of_Z n = S754_finite false m e /\ Zdigits2 (Zpos m) = 24 /\
    -23 <= e <= 0 /\ Zpos m = n * 2 ^ (- e).
Proof.
  intros [Hlo Hhi]. destruct n as [|p|p]; try lia.
  unfold F32.of_Z, binary_normalize, binary_round.
  pose proof (digits2_pos_log2 p) as Hd.
  pose proof (Z.log2_nonneg (Zpos p)) as Hl0.
  assert (Hl1 : Z.log2 (Zpos p) < 24) by (apply Z.log2_lt_pow2; lia).
  destruct (Z.log2_spec (Zpos p) ltac:(lia)) as [Hp0 Hp1].
  set (d := Zpos (digits2_pos p)) in *.
  replace (fexp F32.prec F32.emax (d + 0)) with (d - 24)
    by (unfold fexp, emin, F32.prec, F32.emax; lia).
  destruct (shl_align_spec p 0 (d - 24) ltac:(lia)) as (m & -> & Hm).
  replace (0 - (d - 24)) with (24 - d) in Hm by lia.
  assert (Hb : 2 ^ 23 <= Zpos m < 2 ^ 24).
  { rewrite Hm.
    assert (E1 : 2 ^ Z.log2 (Zpos p) * 2 ^ (24 - d) = 2 ^ 23)
      by (rewrite <- Z.pow_add_r by lia; f_equal; lia).
    assert (E2 : 2 ^ Z.succ (Z.log2 (Zpos p)) * 2 ^ (24 - d) = 2 ^ 24)
      by (rewrite <- Z.pow_add_r by lia; f_equal; lia).
    assert (0 < 2 ^ (24 - d)) by (apply Z.pow_pos_nonneg; lia).
    rewrite <- E1, <- E2.
    split; [apply Z.mul_le_mono_nonneg_r | apply Z.mul_lt_mono_pos_r]; lia. }
  assert (Hdm : Zdigits2 (Zpos m) = 24) by (apply Zdigits2_bounds; lia).
  unfold F32.prec, F32.emax.
  rewrite binary_round_aux_canonical by (trivial; lia).
  exists m, (d - 24). repeat split; try lia; trivial.
  rewrite Hm. f_equal. f_equal. lia.
Qed.

Lemma div_c100_unfold m e :
  Zdigits2 (Zpos m) = 24 -> -23 <= e <= 0 ->
  F32.div (S754_finite false m e) F32.c100 =
  binary_round_aux 24 128 false
    (fst (Z.div_eucl (Zpos m * 2 ^ 24) 13107200)) (e - 7)
    (new_location 13107200 (snd (Z.div_eucl (Zpos m * 2 ^ 24) 13107200))).
Proof.
  intros Hd He.
  change F32.c100 with (S754_finite false 13107200 (-17)).
  unfold F32.div, F32.prec, F32.emax, SFdiv, SFdiv_core_binary.
  rewrite Hd. change (Zdigits2 13107200) with 24.
  replace (Z.min (fexp 24 128 (24 + e - (24 + -17))) (e - -17)) with (e - 7)
    by (unfold fexp, emin; lia).
  replace (e - -17 - (e - 7)) with 24 by lia.
  rewrite Z.shiftl_mul_pow2 by lia.
  destruct (Z.div_eucl (Zpos m * 2 ^ 24) 13107200) as [q r]. reflexivity.
Qed.

(** [(float) n / 100.0f] for [0 < n < 2^24]: a normal number whose value
    is within half a unit in the last place of [n / 100]. *)
Lemma div_c100_spec n :
  0 < n < 2 ^ 24 ->
  exists m e,
    F32.div (F32.of_Z n) F32.c100 = S754_finite false m e /\
    Zdigits2 (Zpos m) = 24 /\ -30 <= e <= -5 /\
    Z.abs (n * 2 ^ (1 - e) - 200 * Zpos m) <= 100.
Proof.
  intros Hn. destruct (of_Z_spec n Hn) as (M & E & -> & HdM & HE & HM).
  rewrite div_c100_unfold by (trivial; lia).
  pose proof (new_location_located (Zpos M * 2 ^ 24) 13107200
                ltac:(lia) eq_refl) as Hloc.
  pose proof (Z_div_mod (Zpos M * 2 ^ 24) 13107200 ltac:(lia)) as Hdiv.
  destruct (Z.div_eucl (Zpos M * 2 ^ 24) 13107200) as [q r].
  cbn [fst snd] in *. destruct Hdiv as [Hdiv Hr].
  pose proof (Zdigits2_24_bounds M HdM) as HbM.
  change (2 ^ 24) with 16777216 in *.
  destruct (binary_round_aux_spec (Zpos M * 16777216) 13107200 false q (E - 7)
              (new_location 13107200 r) ltac:(lia) Hloc)
    as (m & e & -> & He & Hdm & Habs).
  { change (2 ^ 23) with 8388608. change (2 ^ 25) with 33554432. lia. }
  { lia. }
  exists m, e. repeat split; try lia; trivial.
  assert (Hj : e = E - 7 \/ e = E - 6 \/ e = E - 5) by lia.
  destruct Hj as [-> | [-> | ->]].
  - replace (E - 7 - (E - 7)) with 0 in Habs by lia.
    replace (1 - (E - 7)) with (- E + 8) by lia.
    rewrite Z.pow_add_r, Z.mul_assoc, <- HM by lia.
    change (2 ^ 0) with 1 in Habs. change (2 ^ 8) with 256. lia.
  - replace (E - 6 - (E - 7)) with 1 in Habs by lia.
    replace (1 - (E - 6)) with (- E + 7) by lia.
    rewrite Z.pow_add_r, Z.mul_assoc, <- HM by lia.
    change (2 ^ 1) with 2 in Habs. change (2 ^ 7) with 128. lia.
  - replace (E - 5 - (E - 7)) with 2 in Habs by lia.
    replace (1 - (E - 5)) with (- E + 6) by lia.
    rewrite Z.pow_add_r, Z.mul_assoc, <- HM by lia.
    change (2 ^ 2) with 4 in Habs. change (2 ^ 6) with 64. lia.
Qed.

(** ** From integers to rationals *)

Lemma Qpow2_nonpos e :
  e <= 0 -> (Qpower (2 # 1) e == / inject_Z (2 ^ (- e)))%Q.
Proof.
  intros He. replace e with (- (- e)) at 1 by lia.
  rewrite Qpower_opp, Zpower_Qpower by lia. reflexivity.
Qed.

Lemma of_Z_exact n : 0 <= n < 2 ^ 24 -> (F32.to_Q (F32.of_Z n) == inject_Z n)%Q.
Proof.
  intros Hn. destruct (Z.eq_dec n 0) as [-> | Hne]; [reflexivity|].
  destruct (of_Z_spec n ltac:(lia)) as (m & e & -> & _ & He & Hm).
  cbn [F32.to_Q]. rewrite Qpow2_nonpos, Hm, inject_Z_mult by lia.
  assert (HD : 0 < 2 ^ (- e)) by (apply Z.pow_pos_nonneg; lia).
  field. change 0%Q with (inject_Z 0). rewrite inject_Z_injective. lia.
Qed.

Lemma nearest_Q m e n :
  e <= 0 -> Z.abs (n * 2 ^ (1 - e) - 200 * Zpos m) <= 100 ->
  (Qabs (F32.to_Q (S754_finite false m e) - (n # 100)) <=
   F32.half_ulp (S754_finite false m e))%Q.
Proof.
  intros He H. cbn [F32.to_Q F32.half_ulp].
  rewrite !Qpow2_nonpos by lia.
  replace (- (e - 1)) with (1 - e) by lia.
  replace (1 - e) with (Z.succ (- e)) in * by lia.
  rewrite Z.pow_succ_r in * by lia.
  assert (HD : 0 < 2 ^ (- e)) by (apply Z.pow_pos_nonneg; lia).
  set (D := 2 ^ (- e)) in *.
  assert (HDq : ~ (inject_Z D == 0)%Q).
  { change 0%Q with (inject_Z 0). rewrite inject_Z_injective. lia. }
  assert (Hc : (0 < inject_Z (200 * D))%Q).
  { change 0%Q with (inject_Z 0). rewrite <- Zlt_Qlt. lia. }
  apply (Qmult_le_l _ _ _ Hc).
  rewrite <- (Qabs_pos (inject_Z (200 * D))) at 1 by (apply Qlt_le_weak, Hc).
  rewrite <- Qabs_Qmult.
  assert (E1 : (inject_Z (200 * D) *
                (inject_Z (Z.pos m) * / inject_Z D - (n # 100))
                == inject_Z (200 * Z.pos m - n * (2 * D)))%Q).
  { rewrite (Qmake_Qdiv n 100). unfold Z.sub.
    rewrite inject_Z_plus, inject_Z_opp, !inject_Z_mult. field. exact HDq. }
  assert (E2 : (inject_Z (200 * D) * / inject_Z (2 * D) == inject_Z 100)%Q).
  { rewrite !inject_Z_mult. field. exact HDq. }
  rewrite E1, E2.
  change (Qabs (inject_Z (200 * Z.pos m - n * (2 * D))))
    with (inject_Z (Z.abs (200 * Z.pos m - n * (2 * D)))).
  rewrite <- Zle_Qle. lia.
Qed.

(** ** The conversion steps *)

Lemma valid_binary_normal s m e :
  Zdigits2 (Zpos m) = 24 -> -149 <= e <= 104 ->
  valid_binary 24 128 (S754_finite s m e) = true.
Proof.
  intros Hd He. cbn [Zdigits2] in Hd.
  unfold valid_binary, bounded, canonical_mantissa. rewrite Hd.
  apply andb_true_intro. split; [apply Z.eqb_eq | apply Z.leb_le].
  - unfold fexp, emin. lia.
  - lia.
Qed.

Lemma pressure_value_spec n :
  0 <= n < 2 ^ 24 ->
  F32.is_finite (F32.div (F32.of_Z n) F32.c100) = true /\
  valid_binary 24 128 (F32.div (F32.of_Z n) F32.c100) = true /\
  (Qabs (F32.to_Q (F32.div (F32.of_Z n) F32.c100) - (n # 100)) <=
   F32.half_ulp (F32.div (F32.of_Z n) F32.c100))%Q.
Proof.
  intros Hn. destruct (Z.eq_dec n 0) as [-> | Hne].
  - repeat split; try reflexivity. vm_compute. discriminate.
  - destruct (div_c100_spec n ltac:(lia)) as (m & e & -> & Hd & He & Habs).
    repeat split.
    + apply valid_binary_normal; [exact Hd | lia].
    + apply nearest_Q; [lia | exact Habs].
Qed.

Lemma of_byte_in_values b : In (CInt.of_byte b) byte_values.
Proof.
  unfold byte_values, CInt.of_byte. apply in_map_iff.
  exists (N.to_nat (Byte.to_N b)). split; [apply N_nat_Z|].
  apply in_seq. pose proof (Byte.to_N_bounded b). lia.
Qed.

Lemma temperature_check_all :
  forallb (fun a => forallb (fun b => temperature_check (256 * a + b))
                      byte_values) byte_values = true.
Proof. vm_compute. reflexivity. Qed.

Lemma temperature_check_bytes b0 b1 :
  temperature_check (256 * CInt.of_byte b0 + CInt.of_byte b1) = true.
Proof.
  pose proof temperature_check_all as H.
  rewrite forallb_forall in H. specialize (H _ (of_byte_in_values b0)).
  rewrite forallb_forall in H. exact (H _ (of_byte_in_values b1)).
Qed.

(** C1: on the bytes [b0, b1, b2] the pressure conversion computes the
    big-endian 24-bit value [n], converts it to [float] without error and
    divides by [100.0f]: the result is never a NaN or an infinity, it is
    in canonical form, and it lies within half a unit in its last place of
    [n / 100]. *)
Theorem decode_pressure_correct (b0 b1 b2 : byte) (rest : list byte) :
  let data := b0 :: b1 :: b2 :: rest in
  let n := 65536 * CInt.of_byte b0 + 256 * CInt.of_byte b1 + CInt.of_byte b2 in
  raw_pressure data = n /\
  (F32.to_Q (F32.of_Z n) == inject_Z n)%Q /\
  (F32.to_Q F32.c100 == 100)%Q /\
  decode_pressure data = F32.div (F32.of_Z n) F32.c100 /\
  F32.is_finite (decode_pressure data) = true /\
  valid_binary 24 128 (decode_pressure data) = true /\
  (Qabs (F32.to_Q (decode_pressure data) - (n # 100)) <=
   F32.half_ulp (decode_pressure data))%Q.
Proof.
  intros data n.
  assert (Hraw : raw_pressure data = n) by apply raw_pressure_big_endian.
  assert (Hn : 0 <= n < 2 ^ 24).
  { subst n. pose proof (of_byte_range b0). pose proof (of_byte_range b1).
    pose proof (of_byte_range b2). change (2 ^ 24) with 16777216. lia. }
  unfold decode_pressure. rewrite Hraw.
  destruct (pressure_value_spec n Hn) as (Hfin & Hval & Hnear).
  repeat split; trivial. apply of_Z_exact, Hn.
Qed.

(** C2: on the bytes [b0, b1] the temperature conversion computes the
    big-endian 16-bit value [n], converts it to [float] without error,
    divides by [100.0f] and subtracts [40.0f]: the result is never a NaN or
    an infinity, and it is within [2^-15] of [n / 100 - 40]. *)
Theorem decode_temperature_correct (b0 b1 : byte) (rest : list byte) :
  let data := b0 :: b1 :: rest in
  let n := 256 * CInt.of_byte b0 + CInt.of_byte b1 in
  raw_temp data = n /\
  (F32.to_Q (F32.of_Z n) == inject_Z n)%Q /\
  (F32.to_Q F32.c100 == 100)%Q /\ (F32.to_Q F32.c40 == 40)%Q /\
  decode_temperature data =
    F32.sub (F32.div (F32.of_Z n) F32.c100) F32.c40 /\
  F32.is_finite (decode_temperature data) = true /\
  valid_binary 24 128 (decode_temperature data) = true /\
  (Qabs (F32.to_Q (decode_temperature data) - ((n # 100) - 40)) <=
   1 # 32768)%Q.
Proof.
  intros data n.
  assert (Hraw : raw_temp data = n) by apply raw_temp_big_endian.
  assert (Hn : 0 <= n < 2 ^ 24).
  { subst n. pose proof (of_byte_range b0). pose proof (of_byte_range b1).
    change (2 ^ 24) with 16777216. lia. }
  unfold decode_temperature. rewrite Hraw.
  pose proof (temperature_check_bytes b0 b1) as Hchk.
  unfold temperature_check in Hchk. fold n in Hchk.
  apply andb_prop in Hchk. destruct Hchk as [Hchk Hq].
  apply andb_prop in Hchk. destruct Hchk as [Hfin Hval].
  apply Qle_bool_iff in Hq.
  repeat split; trivial. apply of_Z_exact, Hn.
Qed.

(** C5, as the code has it: the bytes [0, 0, 0] give [+0.0]; the bytes
    [0xFF, 0xFF, 0xFF] give the [binary32] number [10737418 * 2^-6], that
    is 167772.15625.  It is the one nearest to 167772.15: it is off by
    1/160, and its two neighbours, a unit in the last place (1/64) below
    and above, are farther away. *)
Theorem pressure_boundary_values (rest : list byte) :
  decode_pressure (x00 :: x00 :: x00 :: rest) = S754_zero false /\
  decode_pressure (xff :: xff :: xff :: rest) = S754_finite false 10737418 (-6) /\
  (F32.to_Q (decode_pressure (xff :: xff :: xff :: rest))
   == 16777215625 # 100000)%Q /\
  (Qabs (F32.to_Q (decode_pressure (xff :: xff :: xff :: rest))
         - (16777215 # 100)) == 1 # 160)%Q /\
  (F32.half_ulp (decode_pressure (xff :: xff :: xff :: rest)) == 1 # 128)%Q /\
  (1 # 160 < Qabs (F32.to_Q (S754_finite false 10737417 (-6))
                   - (16777215 # 100)))%Q /\
  (1 # 160 < Qabs (F32.to_Q (S754_finite false 10737419 (-6))
                   - (16777215 # 100)))%Q.
Proof.
  assert (H0 : decode_pressure (x00 :: x00 :: x00 :: rest) = S754_zero false).
  { unfold decode_pressure. rewrite raw_pressure_big_endian. reflexivity. }
  assert (H1 : decode_pressure (xff :: xff :: xff :: rest)
               = S754_finite false 10737418 (-6)).
  { unfold decode_pressure. rewrite raw_pressure_big_endian.
    vm_compute. reflexivity. }
  rewrite H0, H1. repeat split; vm_compute; reflexivity.
Qed.

(** C5, as the claim has it, fails: the value returned for
    [0xFF, 0xFF, 0xFF] is not 167772.15. *)
Lemma pressure_max_not_exact :
  ~ ((F32.to_Q (decode_pressure [x00; x00; x00]) == 0)%Q /\
     (F32.to_Q (decode_pressure [xff; xff; xff]) == 16777215 # 100)%Q).
Proof. intros [_ H]. vm_compute in H. discriminate H. Qed.

(** C6: the bytes [0, 0] give exactly -40.0, and the bytes [0x27, 0x10]
    (raw value 10000) give exactly 60.0. *)
Theorem temperature_boundary_values (rest : list byte) :
  raw_temp (x27 :: x10 :: rest) = 10000 /\
  decode_temperature (x00 :: x00 :: rest) = S754_finite true 10485760 (-18) /\
  (F32.to_Q (decode_temperature (x00 :: x00 :: rest)) == - (40))%Q /\
  decode_temperature (x27 :: x10 :: rest) = S754_finite false 15728640 (-18) /\
  (F32.to_Q (decode_temperature (x27 :: x10 :: rest)) == 60)%Q.
Proof.
  assert (H0 : decode_temperature (x00 :: x00 :: rest)
               = S754_finite true 10485760 (-18)).
  { unfold decode_temperature. rewrite raw_temp_big_endian.
    vm_compute. reflexivity. }
  assert (H1 : decode_temperature (x27 :: x10 :: rest)
               = S754_finite false 15728640 (-18)).
  { unfold decode_temperature. rewrite raw_temp_big_endian.
    vm_compute. reflexivity. }
  rewrite H0, H1, raw_temp_big_endian. repeat split; vm_compute; reflexivity.
Qed.

(** ** One bus transfer *)

(** Project the fields of a world that a run has rebuilt. *)
Ltac world_fields :=
  cbn [fst snd w_nwrite w_nread w_mem w_stores w_trace].

Lemma read_pressure_eq E fd p :
  read_pressure E fd p =
  read_sample pressure_cmd 100000 9
    ("Error sending pressure command: %s" ++ nl)
    ("Error reading pressure data: %s" ++ nl) decode_pressure E fd p.
Proof. reflexivity. Qed.

Lemma read_temperature_eq E fd p :
  read_temperature E fd p =
  read_sample temperature_cmd 50000 6
    ("Error sending temperature command: %s" ++ nl)
    ("Error reading temperature data: %s" ++ nl) decode_temperature E fd p.
Proof. reflexivity. Qed.

Lemma short_read_length E w count :
  short_read E w count = false -> length (delivered E w count) = count.
Proof.
  unfold short_read, delivered. destruct (env_read E (w_nread w)) as [bs|].
  - intros H. apply Nat.ltb_ge in H. rewrite length_firstn. lia.
  - discriminate.
Qed.

Lemma read_sample_spec cmd delay count msg_w msg_r decode E fd p w :
  let r := fst (read_sample cmd delay count msg_w msg_r decode E fd p w) in
  let w' := snd (read_sample cmd delay count msg_w msg_r decode E fd p w) in
  w_nwrite w' = S (w_nwrite w) /\
  if short_write E w then
    r = -1 /\ w_nread w' = w_nread w /\
    w_mem w' = w_mem w /\ w_stores w' = w_stores w /\
    w_trace w' = w_trace w ++ [EWrite fd cmd; EPrint stderr msg_w [AErrno]]
  else if short_read E w count then
    r = -1 /\ w_nread w' = S (w_nread w) /\
    w_mem w' = w_mem w /\ w_stores w' = w_stores w /\
    w_trace w' = w_trace w ++ [EWrite fd cmd; EUsleep delay; ERead fd count;
                               EPrint stderr msg_r [AErrno]]
  else
    r = 0 /\ w_nread w' = S (w_nread w) /\
    w_mem w' = <[p := decode (delivered E w count)]> (w_mem w) /\
    w_stores w' = w_stores w ++ [(p, decode (delivered E w count))] /\
    w_trace w' = w_trace w ++ [EWrite fd cmd; EUsleep delay; ERead fd count].
Proof.
  unfold read_sample, short_write, short_read, delivered.
  unfold mbind, M_bind, mret, M_ret, sys_write, sys_read, usleep, fprintf,
    store, emit.
  cbn [fst snd w_nwrite w_nread w_mem w_stores w_trace].
  destruct (negb (env_write E (w_nwrite w) =? 3)) eqn:Hw;
    cbn [fst snd w_nwrite w_nread w_mem w_stores w_trace].
  - rewrite <- app_assoc. repeat split; reflexivity.
  - destruct (env_read E (w_nread w)) as [bs|] eqn:Hr;
      cbn [fst snd w_nwrite w_nread w_mem w_stores w_trace].
    + rewrite length_firstn.
      destruct (Nat.ltb_spec (length bs) count) as [Hlt|Hge].
      * replace (Z.of_nat (Init.Nat.min count (length bs)) =? Z.of_nat count)
          with false by (symmetry; apply Z.eqb_neq; lia).
        cbn [negb fst snd w_nwrite w_nread w_mem w_stores w_trace].
        rewrite <- !app_assoc. repeat split; reflexivity.
      * replace (Z.of_nat (Init.Nat.min count (length bs)) =? Z.of_nat count)
          with true by (symmetry; apply Z.eqb_eq; lia).
        cbn [negb fst snd w_nwrite w_nread w_mem w_stores w_trace].
        rewrite <- !app_assoc. repeat split; reflexivity.
    + replace (-1 =? Z.of_nat count) with false
        by (symmetry; apply Z.eqb_neq; lia).
      cbn [negb fst snd w_nwrite w_nread w_mem w_stores w_trace].
      rewrite <- !app_assoc. repeat split; reflexivity.
Qed.

Lemma read_sample_io cmd delay count msg_w msg_r decode E fd p w :
  let r := fst (read_sample cmd delay count msg_w msg_r decode E fd p w) in
  let w' := snd (read_sample cmd delay count msg_w msg_r decode E fd p w) in
  w_nwrite w' = S (w_nwrite w) /\
  (exists evs, w_trace w' = w_trace w ++ EWrite fd cmd :: evs /\
               quiet evs /\ List.filter is_write evs = []) /\
  if io_fails E w count then
    r = -1 /\ w_mem w' = w_mem w /\ w_stores w' = w_stores w
  else
    r = 0 /\
    w_mem w' = <[p := decode (delivered E w count)]> (w_mem w) /\
    w_stores w' = w_stores w ++ [(p, decode (delivered E w count))] /\
    length (delivered E w count) = count.
Proof.
  pose proof (read_sample_spec cmd delay count msg_w msg_r decode E fd p w) as H.
  pose proof (short_read_length E w count) as Hlen.
  cbv zeta in *. destruct H as [Hnw H]. split; [exact Hnw|].
  unfold io_fails.
  destruct (short_write E w); [|destruct (short_read E w count)];
    cbn [orb]; destruct H as (Hr & _ & Hm & Hs & Ht).
  - split; [|auto]. eexists. split; [exact Ht|]. repeat split; reflexivity.
  - split; [|auto]. eexists. split; [exact Ht|]. repeat split; reflexivity.
  - split; [|auto]. eexists. split; [exact Ht|]. repeat split; reflexivity.
Qed.

(** ** One pass of the loop *)

Lemma filter_write_of_nil cmd evs :
  List.filter is_write evs = [] -> List.filter (is_write_of cmd) evs = [].
Proof.
  induction evs as [|e evs IH]; [reflexivity|].
  destruct e; cbn [List.filter is_write is_write_of]; try exact IH. discriminate.
Qed.

Lemma is_write_of_same cmd fd : is_write_of cmd (EWrite fd cmd) = true.
Proof. apply bool_decide_eq_true_2. reflexivity. Qed.

Lemma count_cmd_app cmd evs1 evs2 :
  count_cmd cmd (evs1 ++ evs2) = (count_cmd cmd evs1 + count_cmd cmd evs2)%nat.
Proof. unfold count_cmd. rewrite List.filter_app. apply length_app. Qed.

Lemma count_cmd_quiet cmd evs : List.filter is_write evs = [] -> count_cmd cmd evs = 0%nat.
Proof. intros H. unfold count_cmd. rewrite filter_write_of_nil; trivial. Qed.

(** The events of one transfer: the command, then nothing that shows. *)
Lemma transfer_events cmd fd evs :
  quiet evs -> List.filter is_write evs = [] ->
  rows (EWrite fd cmd :: evs) = [] /\
  List.filter is_close (EWrite fd cmd :: evs) = [] /\
  count_cmd cmd (EWrite fd cmd :: evs) = 1%nat.
Proof.
  intros (Hr & Hc & _) Hw. unfold count_cmd, rows in *.
  cbn [List.filter is_row row_cells is_close]. rewrite is_write_of_same.
  cbn [length]. rewrite Hr, Hc, (filter_write_of_nil _ _ Hw). auto.
Qed.

Lemma loop_body_spec E fd sc w :
  let sc' := CInt.to_int (sc + 1) in
  let w1 := snd (read_pressure E fd pressure w) in
  fst (loop_body E fd sc w) = sc' /\
  exists evs row pc tc,
    w_trace (snd (loop_body E fd sc w)) = w_trace w ++ evs /\
    rows evs = [row] /\ List.filter is_close evs = [] /\
    count_cmd pressure_cmd evs = 1%nat /\
    row_cells row = Some (AInt sc', pc, tc) /\
    if io_fails E w 9 then pc = AStr "Error" /\ tc = AStr "Error"
    else
      pc = ADouble (Some (decode_pressure (delivered E w 9))) /\
      if io_fails E w1 6 then tc = AStr "Error"
      else tc = ADouble (Some (decode_temperature (delivered E w1 6))).
Proof.
  intros sc' w1.
  pose proof (read_sample_io pressure_cmd 100000 9
                ("Error sending pressure command: %s" ++ nl)
                ("Error reading pressure data: %s" ++ nl)
                decode_pressure E fd pressure w) as Hp.
  rewrite <- read_pressure_eq in Hp. cbv zeta in Hp. fold w1 in Hp.
  pose proof (read_sample_io temperature_cmd 50000 6
                ("Error sending temperature command: %s" ++ nl)
                ("Error reading temperature data: %s" ++ nl)
                decode_temperature E fd temperature w1) as Ht.
  rewrite <- read_temperature_eq in Ht. cbv zeta in Ht.
  unfold loop_body. fold sc'. unfold mbind, M_bind, mret, M_ret.
  subst w1.
  destruct (read_pressure E fd pressure w) as [rp w1].
  cbn [fst snd] in *.
  destruct Hp as (_ & (evs1 & Htr1 & Hq1 & Hw1) & Hp).
  destruct (transfer_events pressure_cmd fd evs1 Hq1 Hw1) as (Hr1 & Hc1 & Hn1).
  destruct (io_fails E w 9).
  - destruct Hp as (-> & _). cbn [Z.eqb].
    unfold printf, sleep, emit. cbn [fst snd w_trace].
    split; [reflexivity|].
    rewrite Htr1, <- !app_assoc.
    eexists ((_ :: _) ++ [_; _]), _, _, _. split; [reflexivity|].
    rewrite count_cmd_app, Hn1. unfold rows in *.
    rewrite !List.filter_app, Hr1, Hc1.
    repeat split; reflexivity.
  - destruct Hp as (-> & Hm1 & _). cbn [Z.eqb].
    destruct (read_temperature E fd temperature w1) as [rt w2].
    cbn [fst snd] in *.
    destruct Ht as (_ & (evs2 & Htr2 & Hq2 & Hw2) & Ht).
    destruct (transfer_events temperature_cmd fd evs2 Hq2 Hw2)
      as (Hr2 & Hc2 & _).
    assert (Hn2 : count_cmd pressure_cmd (EWrite fd temperature_cmd :: evs2)
                  = 0%nat).
    { unfold count_cmd. cbn [List.filter].
      change (is_write_of pressure_cmd (EWrite fd temperature_cmd)) with false.
      cbv iota. rewrite (filter_write_of_nil _ _ Hw2). reflexivity. }
    destruct (io_fails E w1 6).
    + destruct Ht as (-> & Hm2 & _). cbn [Z.eqb].
      unfold printf, sleep, load, emit. cbn [fst snd w_trace w_mem].
      rewrite Hm2, Hm1, lookup_insert_eq.
      split; [reflexivity|].
      rewrite Htr2, Htr1, <- !app_assoc.
      eexists ((_ :: _) ++ (_ :: _) ++ [_; _]), _, _, _. split; [reflexivity|].
      rewrite !count_cmd_app, Hn1, Hn2. unfold rows in *.
      rewrite !List.filter_app, Hr1, Hc1, Hr2, Hc2.
      repeat split; reflexivity.
    + destruct Ht as (-> & Hm2 & _). cbn [Z.eqb].
      unfold printf, sleep, load, emit. cbn [fst snd w_trace w_mem].
      rewrite Hm2, Hm1, lookup_insert_eq.
      rewrite lookup_insert_ne by discriminate. rewrite lookup_insert_eq.
      split; [reflexivity|].
      rewrite Htr2, Htr1, <- !app_assoc.
      eexists ((_ :: _) ++ (_ :: _) ++ [_; _]), _, _, _. split; [reflexivity|].
      rewrite !count_cmd_app, Hn1, Hn2. unfold rows in *.
      rewrite !List.filter_app, Hr1, Hc1, Hr2, Hc2.
      repeat split; reflexivity.
Qed.

(** ** The loop and [main] *)

Lemma while_true_run E fd cond fuel :
  (forall s, cond s = true) -> forall sc w,
  fst (while_ fuel cond (loop_body E fd) sc w) = None /\
  exists evs,
    w_trace (snd (while_ fuel cond (loop_body E fd) sc w)) = w_trace w ++ evs /\
    length (rows evs) = fuel /\ List.filter is_close evs = [] /\
    count_cmd pressure_cmd evs = fuel.
Proof.
  intros Hcond. induction fuel as [|fuel IH]; intros sc w.
  - cbn [while_]. rewrite Hcond. split; [reflexivity|].
    exists []. cbn. rewrite app_nil_r. auto.
  - cbn [while_]. rewrite Hcond. unfold mbind, M_bind.
    destruct (loop_body_spec E fd sc w)
      as (_ & evs1 & row & pc & tc & Htr1 & Hrow1 & Hcl1 & Hn1 & _).
    destruct (loop_body E fd sc w) as [sc1 w1]. cbn [fst snd] in *.
    destruct (IH sc1 w1) as (Hres & evs2 & Htr2 & Hrow2 & Hcl2 & Hn2).
    split; [exact Hres|].
    exists (evs1 ++ evs2). rewrite Htr2, Htr1, <- app_assoc.
    split; [reflexivity|].
    unfold rows in *.
    rewrite count_cmd_app, !List.filter_app, length_app, Hrow1, Hcl1, Hcl2.
    rewrite Hrow2, Hn1, Hn2. repeat split; reflexivity.
Qed.

Lemma print_sensor_info_run addr w :
  w_trace (snd (print_sensor_info addr w)) = w_trace w ++ banner addr /\
  rows (banner addr) = [] /\ List.filter is_close (banner addr) = [] /\
  List.filter is_stdout (banner addr) = banner addr /\
  List.filter is_write (banner addr) = [].
Proof.
  split; [|repeat split; reflexivity].
  unfold banner, print_sensor_info, printf, emit, mbind, M_bind.
  cbn [fst snd w_trace world0 app]. rewrite <- !app_assoc. reflexivity.
Qed.

Lemma init_i2c_spec E dev addr w :
  exists evs,
    w_trace (snd (init_i2c E dev addr w)) = w_trace w ++ evs /\
    rows evs = [] /\ List.filter is_stdout evs = [] /\
    List.filter is_write evs = [] /\
    ((fst (init_i2c E dev addr w) <? 0) = false -> List.filter is_close evs = []).
Proof.
  unfold init_i2c, sys_open, sys_ioctl, sys_close, fprintf, emit.
  unfold mbind, M_bind, mret, M_ret. cbn [fst snd w_trace].
  destruct (env_open E dev <? 0) eqn:Ho; cbn [fst snd w_trace].
  - rewrite <- !app_assoc. eexists. split; [reflexivity|].
    repeat split; try discriminate.
  - destruct (env_ioctl E (env_open E dev) addr <? 0) eqn:Hi;
      cbn [fst snd w_trace]; rewrite <- !app_assoc;
      (eexists; split; [reflexivity|]); repeat split; try discriminate.
Qed.

Lemma main_run E addr fuel w :
  let fd := fst (init_i2c E I2C_BUS addr (snd (print_sensor_info addr w))) in
  exists evs,
    w_trace (snd (main E addr fuel w)) = w_trace w ++ evs /\
    if fd <? 0 then
      fst (main E addr fuel w) = Some EXIT_FAILURE /\
      rows evs = [] /\ List.filter is_stdout evs = banner addr
    else
      fst (main E addr fuel w) = None /\
      length (rows evs) = fuel /\ List.filter is_close evs = [] /\
      count_cmd pressure_cmd evs = fuel.
Proof.
  intros fd. subst fd.
  destruct (print_sensor_info_run addr w) as (Hb & Hbr & Hbc & Hbs & Hbw).
  destruct (init_i2c_spec E I2C_BUS addr (snd (print_sensor_info addr w)))
    as (ievs & Hi & Hir & Hio & Hiw & Hic).
  unfold main, mbind, M_bind, mret, M_ret.
  destruct (print_sensor_info addr w) as [[] w0]. cbn [fst snd] in *.
  destruct (init_i2c E I2C_BUS addr w0) as [fd w1]. cbn [fst snd] in *.
  destruct (fd <? 0) eqn:Hfd.
  - unfold fprintf, emit. cbn [fst snd w_trace].
    rewrite Hi, Hb, <- !app_assoc.
    eexists. split; [reflexivity|]. split; [reflexivity|].
    unfold rows in *. rewrite !List.filter_app, Hbr, Hir, Hbs, Hio.
    split; [reflexivity | apply app_nil_r].
  - unfold printf, emit. cbn [fst snd w_trace].
    match goal with
    | |- context [while_ fuel ?c ?b ?s ?w] =>
        destruct (while_true_run E fd c fuel (fun _ => eq_refl) s w)
          as (Hres & evs & Htr & Hrows & Hcl & Hn);
        destruct (while_ fuel c b s w) as [r w2]
    end.
    cbn [fst snd w_trace] in *. subst r.
    cbn [fst snd]. rewrite Htr, Hi, Hb, <- !app_assoc.
    eexists. split; [reflexivity|]. split; [reflexivity|].
    unfold rows in *.
    rewrite !count_cmd_app, !List.filter_app, !length_app, Hbr, Hir, Hbc,
      (Hic eq_refl), Hrows, Hcl, Hn, (count_cmd_quiet pressure_cmd _ Hbw),
      (count_cmd_quiet pressure_cmd _ Hiw).
    repeat split; reflexivity.
Qed.

(** ** The transfers and their output pointer *)

Lemma read_pressure_io E fd p w :
  let r := fst (read_pressure E fd p w) in
  let w' := snd (read_pressure E fd p w) in
  if io_fails E w 9 then
    r = -1 /\ w_mem w' = w_mem w /\ w_stores w' = w_stores w
  else
    r = 0 /\
    w_mem w' = <[p := decode_pressure (delivered E w 9)]> (w_mem w) /\
    w_stores w' = w_stores w ++ [(p, decode_pressure (delivered E w 9))] /\
    length (delivered E w 9) = 9%nat.
Proof. rewrite read_pressure_eq. apply read_sample_io. Qed.

Lemma read_temperature_io E fd p w :
  let r := fst (read_temperature E fd p w) in
  let w' := snd (read_temperature E fd p w) in
  if io_fails E w 6 then
    r = -1 /\ w_mem w' = w_mem w /\ w_stores w' = w_stores w
  else
    r = 0 /\
    w_mem w' = <[p := decode_temperature (delivered E w 6)]> (w_mem w) /\
    w_stores w' = w_stores w ++ [(p, decode_temperature (delivered E w 6))] /\
    length (delivered E w 6) = 6%nat.
Proof. rewrite read_temperature_eq. apply read_sample_io. Qed.

(** C10: when the command write or the data read comes up short,
    [read_pressure] and [read_temperature] return -1 and store nothing:
    memory and the log of stores are as before.  Otherwise they return 0
    and the one store they make is to the object the pointer names. *)
Theorem read_failure_frame E fd (p : loc) w :
  (let r := fst (read_pressure E fd p w) in
   let w' := snd (read_pressure E fd p w) in
   if io_fails E w 9 then
     r = -1 /\ w_mem w' = w_mem w /\ w_stores w' = w_stores w
   else
     r = 0 /\
     w_mem w' = <[p := decode_pressure (delivered E w 9)]> (w_mem w) /\
     w_stores w' = w_stores w ++ [(p, decode_pressure (delivered E w 9))]) /\
  (let r := fst (read_temperature E fd p w) in
   let w' := snd (read_temperature E fd p w) in
   if io_fails E w 6 then
     r = -1 /\ w_mem w' = w_mem w /\ w_stores w' = w_stores w
   else
     r = 0 /\
     w_mem w' = <[p := decode_temperature (delivered E w 6)]> (w_mem w) /\
     w_stores w' = w_stores w ++ [(p, decode_temperature (delivered E w 6))]).
Proof.
  pose proof (read_pressure_io E fd p w) as Hp.
  pose proof (read_temperature_io E fd p w) as Ht.
  cbv zeta in *. split.
  - destruct (io_fails E w 9); [exact Hp|]. tauto.
  - destruct (io_fails E w 6); [exact Ht|]. tauto.
Qed.

Lemma stored_pressure E fd (p : loc) w :
  io_fails E w 9 = false ->
  w_mem (snd (read_pressure E fd p w)) !! p
  = Some (decode_pressure (delivered E w 9)).
Proof.
  intros H. pose proof (read_pressure_io E fd p w) as Hp. cbv zeta in Hp.
  rewrite H in Hp. destruct Hp as (_ & -> & _). apply lookup_insert_eq.
Qed.

Lemma stored_temperature E fd (p : loc) w :
  io_fails E w 6 = false ->
  w_mem (snd (read_temperature E fd p w)) !! p
  = Some (decode_temperature (delivered E w 6)).
Proof.
  intros H. pose proof (read_temperature_io E fd p w) as Hp. cbv zeta in Hp.
  rewrite H in Hp. destruct Hp as (_ & -> & _). apply lookup_insert_eq.
Qed.

(** C7: two successful transfers that deliver the same bytes store the
    same value, whatever the environments, handles, pointers and earlier
    histories of the two runs: the value is the conversion of the bytes
    and of nothing else. *)
Theorem decoding_is_pure E1 E2 fd1 fd2 (p1 p2 : loc) w1 w2 :
  (io_fails E1 w1 9 = false -> io_fails E2 w2 9 = false ->
   delivered E1 w1 9 = delivered E2 w2 9 ->
   w_mem (snd (read_pressure E1 fd1 p1 w1)) !! p1
   = Some (decode_pressure (delivered E1 w1 9)) /\
   w_mem (snd (read_pressure E2 fd2 p2 w2)) !! p2
   = w_mem (snd (read_pressure E1 fd1 p1 w1)) !! p1) /\
  (io_fails E1 w1 6 = false -> io_fails E2 w2 6 = false ->
   delivered E1 w1 6 = delivered E2 w2 6 ->
   w_mem (snd (read_temperature E1 fd1 p1 w1)) !! p1
   = Some (decode_temperature (delivered E1 w1 6)) /\
   w_mem (snd (read_temperature E2 fd2 p2 w2)) !! p2
   = w_mem (snd (read_temperature E1 fd1 p1 w1)) !! p1).
Proof.
  split; intros H1 H2 Hd.
  - rewrite !stored_pressure, Hd by assumption. auto.
  - rewrite !stored_temperature, Hd by assumption. auto.
Qed.

Lemma decoding_is_pure_witness :
  w_mem (snd (read_pressure (env_steady 3 sample_bytes) 3 1%positive world0))
    !! 1%positive
  = Some (decode_pressure (delivered (env_steady 3 sample_bytes) world0 9)) /\
  w_mem (snd (read_pressure (env_steady 4 sample_bytes) 4 2%positive
                world_later)) !! 2%positive
  = w_mem (snd (read_pressure (env_steady 3 sample_bytes) 3 1%positive world0))
      !! 1%positive.
Proof.
  apply (proj1 (decoding_is_pure (env_steady 3 sample_bytes)
                  (env_steady 4 sample_bytes) 3 4 1%positive 2%positive
                  world0 world_later)); reflexivity.
Defined.

Lemma decode_temperature_two d d' :
  (2 <= length d)%nat -> (2 <= length d')%nat ->
  firstn 2 d = firstn 2 d' -> decode_temperature d = decode_temperature d'.
Proof.
  intros Hl Hl' H.
  destruct d as [|a [|b d]]; cbn [length] in Hl; try lia.
  destruct d' as [|a' [|b' d']]; cbn [length] in Hl'; try lia.
  cbn [firstn] in H. injection H as -> ->. reflexivity.
Qed.

(** C8: the temperature depends on bytes 0 and 1 of the six that are read
    and on nothing else: buffers that agree on those two bytes convert to
    the same value, and two transfers that deliver such buffers store the
    same temperature. *)
Theorem temperature_uses_first_two_bytes :
  (forall b0 b1 rest rest',
     decode_temperature (b0 :: b1 :: rest)
     = decode_temperature (b0 :: b1 :: rest')) /\
  (forall E1 E2 fd1 fd2 (p1 p2 : loc) w1 w2,
     io_fails E1 w1 6 = false -> io_fails E2 w2 6 = false ->
     firstn 2 (delivered E1 w1 6) = firstn 2 (delivered E2 w2 6) ->
     w_mem (snd (read_temperature E2 fd2 p2 w2)) !! p2
     = w_mem (snd (read_temperature E1 fd1 p1 w1)) !! p1).
Proof.
  split.
  - reflexivity.
  - intros E1 E2 fd1 fd2 p1 p2 w1 w2 H1 H2 Hd.
    rewrite !stored_temperature by assumption. f_equal.
    pose proof (read_temperature_io E1 fd1 p1 w1) as Ha.
    pose proof (read_temperature_io E2 fd2 p2 w2) as Hb.
    cbv zeta in Ha, Hb. rewrite H1 in Ha. rewrite H2 in Hb.
    destruct Ha as (_ & _ & _ & Hla). destruct Hb as (_ & _ & _ & Hlb).
    symmetry. apply decode_temperature_two; [lia | lia | exact Hd].
Qed.

Lemma temperature_uses_first_two_bytes_witness :
  w_mem (snd (read_temperature (env_steady 4 sample_bytes') 4 2%positive
                world_later)) !! 2%positive
  = w_mem (snd (read_temperature (env_steady 3 sample_bytes) 3 1%positive
                  world0)) !! 1%positive.
Proof.
  apply (proj2 temperature_uses_first_two_bytes
           (env_steady 3 sample_bytes) (env_steady 4 sample_bytes'));
    reflexivity.
Defined.

(** ** The polling loop *)

(** C4: when [init_i2c] returns a negative value, [main] returns
    [EXIT_FAILURE], which is not zero, whatever the fuel; no table row is
    printed, and all that reached [stdout] is the banner of
    [print_sensor_info]. *)
Theorem init_failure_is_fatal E addr fuel w :
  fst (init_i2c E I2C_BUS addr (snd (print_sensor_info addr w))) < 0 ->
  fst (main E addr fuel w) = Some EXIT_FAILURE /\ EXIT_FAILURE <> 0 /\
  exists evs,
    w_trace (snd (main E addr fuel w)) = w_trace w ++ evs /\
    rows evs = [] /\ List.filter is_stdout evs = banner addr.
Proof.
  intros Hfd. destruct (main_run E addr fuel w) as (evs & Htr & H).
  apply Z.ltb_lt in Hfd. rewrite Hfd in H. destruct H as (Hres & Hrows & Hout).
  split; [exact Hres|]. split; [discriminate|]. exists evs. auto.
Qed.

Lemma init_failure_is_fatal_witness :
  fst (main env_no_bus 99 5 world0) = Some EXIT_FAILURE /\ EXIT_FAILURE <> 0 /\
  exists evs,
    w_trace (snd (main env_no_bus 99 5 world0)) = w_trace world0 ++ evs /\
    rows evs = [] /\ List.filter is_stdout evs = banner 99.
Proof. apply (init_failure_is_fatal env_no_bus 99 5 world0). reflexivity. Defined.

(** C9: once [init_i2c] has returned a handle, [main] is still in its loop
    after any number of passes: it has not returned, it has closed no
    handle, and it has printed one row per pass.  [main] returns only when
    [init_i2c] fails, and then with [EXIT_FAILURE]; it never returns
    [EXIT_SUCCESS]. *)
Theorem loop_never_exits E addr fuel w :
  let fd := fst (init_i2c E I2C_BUS addr (snd (print_sensor_info addr w))) in
  (if fd <? 0 then fst (main E addr fuel w) = Some EXIT_FAILURE
   else
     fst (main E addr fuel w) = None /\
     exists evs,
       w_trace (snd (main E addr fuel w)) = w_trace w ++ evs /\
       List.filter is_close evs = [] /\ length (rows evs) = fuel) /\
  fst (main E addr fuel w) <> Some EXIT_SUCCESS /\
  EXIT_FAILURE <> EXIT_SUCCESS.
Proof.
  intros fd. destruct (main_run E addr fuel w) as (evs & Htr & H).
  fold fd in H. destruct (fd <? 0).
  - destruct H as (Hres & _). rewrite Hres. repeat split; discriminate.
  - destruct H as (Hres & Hrows & Hcl & _). rewrite Hres.
    repeat split; try discriminate. exists evs. auto.
Qed.

(** ** Two runs of [main] *)

(** A bus that answers: two passes, two rows of values, still running. *)
Example steady_run :
  fst (main (env_steady 3 sample_bytes) 99 2 world0) = None /\
  map row_cells
    (rows (w_trace (snd (main (env_steady 3 sample_bytes) 99 2 world0))))
  = [Some (AInt 1, ADouble (Some (S754_finite false 10240000 (-10))),
           ADouble (Some (S754_finite true 15770560 (-24))));
     Some (AInt 2, ADouble (Some (S754_finite false 10240000 (-10))),
           ADouble (Some (S754_finite true 15770560 (-24))))].
Proof. split; vm_compute; reflexivity. Qed.

(** A bus that answers two bytes where nine are asked for: two passes, two
    rows of "Error", still running. *)
Example short_read_run :
  fst (main (env_steady 3 [x01; x02]) 99 2 world0) = None /\
  map row_cells
    (rows (w_trace (snd (main (env_steady 3 [x01; x02]) 99 2 world0))))
  = [Some (AInt 1, AStr "Error", AStr "Error");
     Some (AInt 2, AStr "Error", AStr "Error")].
Proof. split; vm_compute; reflexivity. Qed.

(** * Further results *)

(** ** [init_i2c] *)

(** What [init_i2c] returns: a negative value exactly when [open] or
    [ioctl] returned one, and then -1; otherwise the handle [open]
    returned. *)
Theorem init_i2c_contract E dev addr w :
  let fd := env_open E dev in
  let r := fst (init_i2c E dev addr w) in
  (r < 0 <-> fd < 0 \/ env_ioctl E fd addr < 0) /\
  (r < 0 -> r = -1) /\ (0 <= r -> r = fd).
Proof.
  unfold init_i2c, sys_open, sys_ioctl, sys_close, fprintf, emit.
  unfold mbind, M_bind, mret, M_ret. cbn [fst snd].
  destruct (Z.ltb_spec (env_open E dev) 0) as [Ho|Ho]; cbn [fst snd].
  - repeat split; intros; lia.
  - destruct (Z.ltb_spec (env_ioctl E (env_open E dev) addr) 0) as [Hi|Hi];
      cbn [fst snd]; repeat split; intros; lia.
Qed.

(** [init_i2c] opens the device once and asks for the slave address only
    on a handle [open] gave.  The handle is closed exactly when [ioctl]
    fails, so a failed [init_i2c] leaves no handle open and a successful
    one closes nothing.  It prints nothing on [stdout], and it touches
    neither the bus nor the [float] objects. *)
Theorem init_i2c_handles E dev addr w :
  let fd := env_open E dev in
  let w' := snd (init_i2c E dev addr w) in
  exists evs,
    w_trace w' = w_trace w ++ EOpen dev :: evs /\
    List.filter is_open evs = [] /\
    List.filter is_ioctl evs = (if fd <? 0 then [] else [EIoctl fd addr]) /\
    List.filter is_close evs =
      (if fd <? 0 then []
       else if env_ioctl E fd addr <? 0 then [EClose fd] else []) /\
    List.filter is_stdout evs = [] /\
    w_mem w' = w_mem w /\ w_stores w' = w_stores w /\
    w_nwrite w' = w_nwrite w /\ w_nread w' = w_nread w.
Proof.
  unfold init_i2c, sys_open, sys_ioctl, sys_close, fprintf, emit.
  unfold mbind, M_bind, mret, M_ret.
  cbn [fst snd w_nwrite w_nread w_mem w_stores w_trace].
  destruct (env_open E dev <? 0);
    cbn [fst snd w_nwrite w_nread w_mem w_stores w_trace].
  - rewrite <- !app_assoc. eexists. split; [reflexivity|].
    repeat split; reflexivity.
  - destruct (env_ioctl E (env_open E dev) addr <? 0);
      cbn [fst snd w_nwrite w_nread w_mem w_stores w_trace];
      rewrite <- !app_assoc; (eexists; split; [reflexivity|]);
      repeat split; reflexivity.
Qed.

(** ** The order of a transfer *)

Lemma read_sample_trace cmd delay count msg_w msg_r decode E fd p w :
  let w' := snd (read_sample cmd delay count msg_w msg_r decode E fd p w) in
  w_trace w' = w_trace w ++ transfer_trace cmd delay count msg_w msg_r E fd w /\
  w_nwrite w' = S (w_nwrite w) /\
  w_nread w' = (if short_write E w then w_nread w else S (w_nread w)).
Proof.
  pose proof (read_sample_spec cmd delay count msg_w msg_r decode E fd p w) as H.
  cbv zeta in *. destruct H as [Hnw H]. unfold transfer_trace.
  destruct (short_write E w); [|destruct (short_read E w count)];
    destruct H as (_ & Hnr & _ & _ & Ht); auto.
Qed.

(** Both transfers send their command first.  After a short write they
    print one message on [stderr] and do not read.  After a full write
    they wait (100 ms for pressure, 50 ms for temperature) and read once
    (9 bytes, 6 bytes); a short read prints one message on [stderr], a
    full one prints nothing. *)
Theorem transfer_protocol E fd (p : loc) w :
  (let w' := snd (read_pressure E fd p w) in
   w_trace w' = w_trace w ++
     (if short_write E w then
        [EWrite fd [x48; xa3; x00];
         EPrint stderr ("Error sending pressure command: %s" ++ nl) [AErrno]]
      else if short_read E w 9 then
        [EWrite fd [x48; xa3; x00]; EUsleep 100000; ERead fd 9;
         EPrint stderr ("Error reading pressure data: %s" ++ nl) [AErrno]]
      else [EWrite fd [x48; xa3; x00]; EUsleep 100000; ERead fd 9]) /\
   w_nwrite w' = S (w_nwrite w) /\
   w_nread w' = (if short_write E w then w_nread w else S (w_nread w))) /\
  (let w' := snd (read_temperature E fd p w) in
   w_trace w' = w_trace w ++
     (if short_write E w then
        [EWrite fd [x60; x9c; x00];
         EPrint stderr ("Error sending temperature command: %s" ++ nl)
           [AErrno]]
      else if short_read E w 6 then
        [EWrite fd [x60; x9c; x00]; EUsleep 50000; ERead fd 6;
         EPrint stderr ("Error reading temperature data: %s" ++ nl) [AErrno]]
      else [EWrite fd [x60; x9c; x00]; EUsleep 50000; ERead fd 6]) /\
   w_nwrite w' = S (w_nwrite w) /\
   w_nread w' = (if short_write E w then w_nread w else S (w_nread w))).
Proof.
  split.
  - rewrite read_pressure_eq. apply read_sample_trace.
  - rewrite read_temperature_eq. apply read_sample_trace.
Qed.

Lemma decode_pressure_three d d' :
  (3 <= length d)%nat -> (3 <= length d')%nat ->
  firstn 3 d = firstn 3 d' -> decode_pressure d = decode_pressure d'.
Proof.
  intros Hl Hl' H.
  destruct d as [|a [|b [|c d]]]; cbn [length] in Hl; try lia.
  destruct d' as [|a' [|b' [|c' d']]]; cbn [length] in Hl'; try lia.
  cbn [firstn] in H. injection H as -> -> ->. reflexivity.
Qed.

(** The pressure depends on bytes 0, 1 and 2 of the nine that are read and
    on nothing else: two transfers that deliver buffers agreeing on those
    three bytes store the same pressure, whatever bytes 3 to 8 hold. *)
Theorem pressure_uses_first_three_bytes
    E1 E2 fd1 fd2 (p1 p2 : loc) w1 w2 :
  io_fails E1 w1 9 = false -> io_fails E2 w2 9 = false ->
  firstn 3 (delivered E1 w1 9) = firstn 3 (delivered E2 w2 9) ->
  w_mem (snd (read_pressure E2 fd2 p2 w2)) !! p2
  = w_mem (snd (read_pressure E1 fd1 p1 w1)) !! p1.
Proof.
  intros H1 H2 Hd.
  rewrite !stored_pressure by assumption. f_equal.
  pose proof (read_pressure_io E1 fd1 p1 w1) as Ha.
  pose proof (read_pressure_io E2 fd2 p2 w2) as Hb.
  cbv zeta in Ha, Hb. rewrite H1 in Ha. rewrite H2 in Hb.
  destruct Ha as (_ & _ & _ & Hla). destruct Hb as (_ & _ & _ & Hlb).
  symmetry. apply decode_pressure_three; [lia | lia | exact Hd].
Qed.

Lemma pressure_uses_first_three_bytes_witness :
  w_mem (snd (read_pressure (env_steady 4 sample_bytes3) 4 2%positive
                world_later)) !! 2%positive
  = w_mem (snd (read_pressure (env_steady 3 sample_bytes) 3 1%positive
                  world0)) !! 1%positive.
Proof.
  apply (pressure_uses_first_three_bytes
           (env_steady 3 sample_bytes) (env_steady 4 sample_bytes3));
    reflexivity.
Defined.

(** ** What the passes of the loop add up to *)

(** A relation that every pass keeps is kept by the loop. *)
Lemma while_inv {S : Type} (R : world -> world -> Prop)
    (cond : S -> bool) (body : S -> M S) :
  (forall w, R w w) -> (forall a b c, R a b -> R b c -> R a c) ->
  (forall s w, R w (snd (body s w))) ->
  forall fuel s w, R w (snd (while_ fuel cond body s w)).
Proof.
  intros Hrefl Htrans Hbody. induction fuel as [|fuel IH]; intros s w.
  - cbn [while_]. destruct (cond s); apply Hrefl.
  - cbn [while_]. destruct (cond s); [|apply Hrefl].
    unfold mbind, M_bind. specialize (Hbody s w).
    destruct (body s w) as [s' w']. cbn [snd] in Hbody.
    exact (Htrans _ _ _ Hbody (IH s' w')).
Qed.

Lemma row_cells_stdout e x : row_cells e = Some x -> is_stdout e = true.
Proof.
  destruct e as [| | | | | | |st fmt args]; try discriminate.
  destruct st; [reflexivity | discriminate].
Qed.

Lemma transfer_trace_facts cmd delay count msg_w msg_r E fd w :
  let tr := transfer_trace cmd delay count msg_w msg_r E fd w in
  List.filter is_stdout tr = [] /\ rows tr = [] /\
  List.filter is_sleep tr = [] /\
  List.filter is_write tr = [EWrite fd cmd] /\
  (forall p decode,
     w_trace (snd (read_sample cmd delay count msg_w msg_r decode E fd p w))
     = w_trace w ++ tr).
Proof.
  cbv zeta. repeat split.
  1-4: unfold transfer_trace;
       destruct (short_write E w); [|destruct (short_read E w count)];
       reflexivity.
  intros p decode. apply read_sample_trace.
Qed.

Lemma count_cmd_writes cmd tr fd cmd' :
  List.filter is_write tr = [EWrite fd cmd'] ->
  count_cmd cmd tr = (if is_write_of cmd (EWrite fd cmd') then 1 else 0)%nat.
Proof.
  intros H. unfold count_cmd.
  assert (Hf : List.filter (is_write_of cmd) tr
               = List.filter (is_write_of cmd) (List.filter is_write tr)).
  { clear H. induction tr as [|e tr IH]; [reflexivity|].
    destruct e; cbn [List.filter is_write is_write_of]; try exact IH.
    destruct (bool_decide _); cbn [List.filter is_write_of]; rewrite IH;
      reflexivity. }
  rewrite Hf, H. cbn [List.filter].
  destruct (is_write_of cmd (EWrite fd cmd')); reflexivity.
Qed.

(** The events of one pass, in full. *)
Lemma loop_body_events E fd sc w :
  let sc' := CInt.to_int (sc + 1) in
  let w1 := snd (read_pressure E fd pressure w) in
  exists row pc tc,
    w_trace (snd (loop_body E fd sc w))
    = w_trace w ++ pressure_trace E fd w ++
      (if io_fails E w 9 then [] else temperature_trace E fd w1) ++
      [row; ESleep 1] /\
    row_cells row = Some (AInt sc', pc, tc) /\
    cell_written pc = true /\ cell_written tc = true.
Proof.
  intros sc' w1.
  pose proof (read_pressure_io E fd pressure w) as Hp.
  pose proof (read_temperature_io E fd temperature w1) as Ht.
  destruct (transfer_trace_facts pressure_cmd 100000 9
              ("Error sending pressure command: %s" ++ nl)
              ("Error reading pressure data: %s" ++ nl) E fd w)
    as (_ & _ & _ & _ & Htp).
  destruct (transfer_trace_facts temperature_cmd 50000 6
              ("Error sending temperature command: %s" ++ nl)
              ("Error reading temperature data: %s" ++ nl) E fd w1)
    as (_ & _ & _ & _ & Htt).
  specialize (Htp pressure decode_pressure).
  specialize (Htt temperature decode_temperature).
  rewrite <- read_pressure_eq in Htp. rewrite <- read_temperature_eq in Htt.
  fold (pressure_trace E fd w) in Htp. fold (temperature_trace E fd w1) in Htt.
  cbv zeta in Hp, Ht. fold w1 in Hp, Htp.
  unfold loop_body. fold sc'. unfold mbind, M_bind, mret, M_ret.
  subst w1. destruct (read_pressure E fd pressure w) as [rp w1].
  cbn [fst snd] in *.
  destruct (io_fails E w 9).
  - destruct Hp as (-> & _). cbn [Z.eqb].
    unfold printf, sleep, emit. cbn [fst snd w_trace].
    rewrite Htp, <- !app_assoc. cbn [app].
    eexists _, _, _. split; [reflexivity|]. repeat split; reflexivity.
  - destruct Hp as (-> & Hm1 & _). cbn [Z.eqb].
    destruct (read_temperature E fd temperature w1) as [rt w2].
    cbn [fst snd] in *.
    destruct (io_fails E w1 6).
    + destruct Ht as (-> & Hm2 & _). cbn [Z.eqb].
      unfold printf, sleep, load, emit. cbn [fst snd w_trace w_mem].
      rewrite Hm2, Hm1, lookup_insert_eq.
      rewrite Htt, Htp, <- !app_assoc. cbn [app].
      eexists _, _, _. split; [reflexivity|]. repeat split; reflexivity.
    + destruct Ht as (-> & Hm2 & _). cbn [Z.eqb].
      unfold printf, sleep, load, emit. cbn [fst snd w_trace w_mem].
      rewrite Hm2, Hm1, lookup_insert_eq.
      rewrite lookup_insert_ne by discriminate. rewrite lookup_insert_eq.
      rewrite Htt, Htp, <- !app_assoc. cbn [app].
      eexists _, _, _. split; [reflexivity|]. repeat split; reflexivity.
Qed.

Lemma loop_facts_nil : loop_facts [].
Proof. repeat split. apply Nat.le_refl. Qed.

Lemma loop_facts_app evs1 evs2 :
  loop_facts evs1 -> loop_facts evs2 -> loop_facts (evs1 ++ evs2).
Proof.
  unfold loop_facts, rows.
  intros (Ho1 & Hw1 & Hs1 & Hp1 & Ht1) (Ho2 & Hw2 & Hs2 & Hp2 & Ht2).
  rewrite !count_cmd_app, !List.filter_app, forallb_app, length_app,
    repeat_app, Ho1, Ho2, Hw1, Hw2, Hs1, Hs2, Hp1, Hp2.
  repeat split. rewrite <- Hp1, <- Hp2. lia.
Qed.

Lemma loop_body_facts E fd sc w :
  exists evs,
    w_trace (snd (loop_body E fd sc w)) = w_trace w ++ evs /\
    loop_facts evs /\
    count_cmd pressure_cmd evs = 1%nat /\
    count_cmd temperature_cmd evs = (if io_fails E w 9 then 0 else 1)%nat /\
    List.filter is_sleep evs = [ESleep 1] /\
    (exists pre, evs = pre ++ [ESleep 1]).
Proof.
  destruct (loop_body_events E fd sc w)
    as (row & pc & tc & Htr & Hcells & Hpc & Htc).
  cbv zeta in Htr.
  set (w1 := snd (read_pressure E fd pressure w)) in *.
  destruct (transfer_trace_facts pressure_cmd 100000 9
              ("Error sending pressure command: %s" ++ nl)
              ("Error reading pressure data: %s" ++ nl) E fd w)
    as (Hpo & Hpr & Hps & Hpw & _).
  destruct (transfer_trace_facts temperature_cmd 50000 6
              ("Error sending temperature command: %s" ++ nl)
              ("Error reading temperature data: %s" ++ nl) E fd w1)
    as (Hto & Htr' & Hts & Htw & _).
  fold (pressure_trace E fd w) in Hpo, Hpr, Hps, Hpw.
  fold (temperature_trace E fd w1) in Hto, Htr', Hts, Htw.
  pose proof (count_cmd_writes pressure_cmd _ _ _ Hpw) as Hpp.
  pose proof (count_cmd_writes temperature_cmd _ _ _ Hpw) as Hpt.
  pose proof (count_cmd_writes pressure_cmd _ _ _ Htw) as Htp.
  pose proof (count_cmd_writes temperature_cmd _ _ _ Htw) as Htt.
  rewrite is_write_of_same in Hpp, Htt.
  change (is_write_of temperature_cmd (EWrite fd pressure_cmd)) with false in Hpt.
  change (is_write_of pressure_cmd (EWrite fd temperature_cmd)) with false in Htp.
  assert (Hrow : is_row row = true) by (unfold is_row; rewrite Hcells; reflexivity).
  assert (Hout : is_stdout row = true) by (eapply row_cells_stdout; eauto).
  assert (Hwr : row_written row = true)
    by (unfold row_written; rewrite Hcells, Hpc, Htc; reflexivity).
  assert (Hnw : is_write_of pressure_cmd row = false /\
                is_write_of temperature_cmd row = false /\ is_sleep row = false).
  { destruct row; try discriminate. repeat split; reflexivity. }
  destruct Hnw as (Hnw1 & Hnw2 & Hnsl).
  eexists. split; [exact Htr|].
  unfold loop_facts, rows, count_cmd in *.
  destruct (io_fails E w 9).
  - rewrite !List.filter_app.
    cbn [List.filter app]. rewrite Hrow, Hout, Hnw1, Hnw2, Hnsl.
    cbn [is_stdout is_row row_cells is_sleep is_write_of app length].
    rewrite Hpo, Hpr, Hps, !app_nil_r, Hpp, Hpt.
    cbn [forallb app length repeat]. rewrite Hwr.
    repeat split; auto.
    exists (pressure_trace E fd w ++ [row]). rewrite <- app_assoc. reflexivity.
  - rewrite !List.filter_app.
    cbn [List.filter app]. rewrite Hrow, Hout, Hnw1, Hnw2, Hnsl.
    cbn [is_stdout is_row row_cells is_sleep is_write_of app length].
    rewrite Hpo, Hpr, Hps, Hto, Htr', Hts, !app_nil_r, !length_app,
      Hpp, Hpt, Htp, Htt.
    cbn [forallb app length repeat Nat.add]. rewrite Hwr.
    repeat split; auto.
    exists (pressure_trace E fd w ++ temperature_trace E fd w1 ++ [row]).
    rewrite <- !app_assoc. reflexivity.
Qed.

Lemma only_locals_refl w : only_locals w w.
Proof.
  split; [reflexivity|]. exists []. rewrite app_nil_r. split; [reflexivity|].
  constructor.
Qed.

Lemma only_locals_trans a b c :
  only_locals a b -> only_locals b c -> only_locals a c.
Proof.
  intros (Hm1 & st1 & Hs1 & Hf1) (Hm2 & st2 & Hs2 & Hf2). split.
  - intros q Hp Ht. rewrite Hm2, Hm1 by assumption. reflexivity.
  - exists (st1 ++ st2). rewrite Hs2, Hs1, <- app_assoc.
    split; [reflexivity|]. apply Forall_app. auto.
Qed.

Lemma only_locals_fields w w' :
  w_mem w' = w_mem w -> w_stores w' = w_stores w -> only_locals w w'.
Proof.
  intros Hm Hs. split; [rewrite Hm; reflexivity|].
  exists []. rewrite Hs, app_nil_r. split; [reflexivity | constructor].
Qed.

Lemma only_locals_store w w' (p : loc) v :
  p = pressure \/ p = temperature ->
  w_mem w' = <[p := v]> (w_mem w) -> w_stores w' = w_stores w ++ [(p, v)] ->
  only_locals w w'.
Proof.
  intros Hp Hm Hs. split.
  - intros q Hq1 Hq2. rewrite Hm. apply lookup_insert_ne.
    destruct Hp; congruence.
  - exists [(p, v)]. split; [exact Hs|].
    constructor; [exact Hp | constructor].
Qed.

Lemma loop_body_only_locals E fd sc w :
  only_locals w (snd (loop_body E fd sc w)).
Proof.
  pose proof (read_pressure_io E fd pressure w) as Hp.
  pose proof (read_temperature_io E fd temperature
                (snd (read_pressure E fd pressure w))) as Ht.
  cbv zeta in Hp, Ht.
  unfold loop_body, mbind, M_bind, mret, M_ret.
  destruct (read_pressure E fd pressure w) as [rp w1]. cbn [fst snd] in *.
  assert (H1 : only_locals w w1).
  { destruct (io_fails E w 9).
    - destruct Hp as (_ & Hm & Hs). apply only_locals_fields; assumption.
    - destruct Hp as (_ & Hm & Hs & _).
      exact (only_locals_store _ _ pressure _ (or_introl eq_refl) Hm Hs). }
  destruct (rp =? 0).
  - destruct (read_temperature E fd temperature w1) as [rt w2].
    cbn [fst snd] in *.
    assert (H2 : only_locals w1 w2).
    { destruct (io_fails E w1 6).
      - destruct Ht as (_ & Hm & Hs). apply only_locals_fields; assumption.
      - destruct Ht as (_ & Hm & Hs & _).
        exact (only_locals_store _ _ temperature _ (or_intror eq_refl) Hm Hs). }
    apply (only_locals_trans _ _ _ H1). apply (only_locals_trans _ _ _ H2).
    destruct (rt =? 0); unfold printf, sleep, load, emit; cbn [fst snd];
      apply only_locals_fields; reflexivity.
  - apply (only_locals_trans _ _ _ H1).
    unfold printf, sleep, emit; cbn [fst snd];
      apply only_locals_fields; reflexivity.
Qed.

Lemma init_i2c_frame E dev addr w :
  w_mem (snd (init_i2c E dev addr w)) = w_mem w /\
  w_stores (snd (init_i2c E dev addr w)) = w_stores w.
Proof.
  unfold init_i2c, sys_open, sys_ioctl, sys_close, fprintf, emit.
  unfold mbind, M_bind, mret, M_ret. cbn [fst snd].
  destruct (env_open E dev <? 0); cbn [fst snd]; [split; reflexivity|].
  destruct (env_ioctl E (env_open E dev) addr <? 0); split; reflexivity.
Qed.

Lemma print_sensor_info_frame addr w :
  w_mem (snd (print_sensor_info addr w)) = w_mem w /\
  w_stores (snd (print_sensor_info addr w)) = w_stores w.
Proof. split; reflexivity. Qed.

(** [main] after a successful [init_i2c]: the world the loop starts in,
    and the loop. *)
Lemma main_unfold E addr fuel w :
  let w0 := snd (print_sensor_info addr w) in
  let fd := fst (init_i2c E I2C_BUS addr w0) in
  let w1 := snd (init_i2c E I2C_BUS addr w0) in
  (fd <? 0) = false ->
  exists w2,
    w_trace w2 = w_trace w1 ++ table_header /\
    w_mem w2 = w_mem w1 /\ w_stores w2 = w_stores w1 /\
    snd (main E addr fuel w)
    = snd (while_ fuel (fun _ => negb (1 =? 0)) (loop_body E fd) 0 w2).
Proof.
  cbv zeta. intros Hfd. unfold main, mbind, M_bind, mret, M_ret.
  destruct (print_sensor_info addr w) as [[] w0]. cbn [fst snd] in *.
  destruct (init_i2c E I2C_BUS addr w0) as [fd w1]. cbn [fst snd] in *.
  rewrite Hfd. unfold printf, emit. cbn [fst snd].
  match goal with
  | |- context [while_ fuel ?c ?b ?s ?w] =>
      exists w;
      destruct (while_true_run E fd c fuel (fun _ => eq_refl) s w) as (Hres & _);
      destruct (while_ fuel c b s w) as [r w3]
  end.
  cbn [fst snd w_trace w_mem w_stores] in *. subst r.
  rewrite <- !app_assoc. repeat split; reflexivity.
Qed.

Lemma while_loop_facts E fd cond fuel sc w :
  exists evs,
    w_trace (snd (while_ fuel cond (loop_body E fd) sc w)) = w_trace w ++ evs /\
    loop_facts evs.
Proof.
  apply (while_inv
           (fun a b => exists evs, w_trace b = w_trace a ++ evs /\ loop_facts evs)).
  - intros a. exists []. rewrite app_nil_r. split; [reflexivity|].
    apply loop_facts_nil.
  - intros a b c (e1 & H1 & F1) (e2 & H2 & F2). exists (e1 ++ e2).
    rewrite H2, H1, <- app_assoc. split; [reflexivity|].
    apply loop_facts_app; assumption.
  - intros s a. destruct (loop_body_facts E fd s a) as (evs & Htr & Hf & _).
    exists evs. auto.
Qed.

Lemma init_i2c_events E dev addr w :
  exists evs,
    w_trace (snd (init_i2c E dev addr w)) = w_trace w ++ evs /\
    rows evs = [] /\ List.filter is_stdout evs = [] /\
    List.filter is_write evs = [] /\ List.filter is_sleep evs = [].
Proof.
  unfold init_i2c, sys_open, sys_ioctl, sys_close, fprintf, emit.
  unfold mbind, M_bind, mret, M_ret. cbn [fst snd w_trace].
  destruct (env_open E dev <? 0); cbn [fst snd w_trace].
  - rewrite <- !app_assoc. eexists. split; [reflexivity|].
    repeat split; reflexivity.
  - destruct (env_ioctl E (env_open E dev) addr <? 0);
      cbn [fst snd w_trace]; rewrite <- !app_assoc;
      (eexists; split; [reflexivity|]); repeat split; reflexivity.
Qed.

(** The events of [main], whole: the banner, the events of [init_i2c] and,
    when it succeeds, the table header and the events of the loop. *)
Lemma main_events E addr fuel w :
  let fd := fst (init_i2c E I2C_BUS addr (snd (print_sensor_info addr w))) in
  exists ievs levs,
    w_trace (snd (main E addr fuel w))
    = w_trace w ++ banner addr ++ ievs ++
      (if fd <? 0 then levs else table_header ++ levs) /\
    rows ievs = [] /\ List.filter is_stdout ievs = [] /\
    List.filter is_write ievs = [] /\ List.filter is_sleep ievs = [] /\
    if fd <? 0 then
      rows levs = [] /\ List.filter is_stdout levs = [] /\
      List.filter is_write levs = [] /\ List.filter is_sleep levs = []
    else loop_facts levs /\ length (rows levs) = fuel.
Proof.
  intros fd.
  destruct (print_sensor_info_run addr w) as (Hb & _).
  destruct (init_i2c_events E I2C_BUS addr (snd (print_sensor_info addr w)))
    as (ievs & Hi & Hir & Hio & Hiw & His).
  exists ievs.
  destruct (fd <? 0) eqn:Hfd.
  - subst fd. unfold main, mbind, M_bind, mret, M_ret.
    destruct (print_sensor_info addr w) as [[] w0]. cbn [fst snd] in *.
    destruct (init_i2c E I2C_BUS addr w0) as [fd w1]. cbn [fst snd] in *.
    rewrite Hfd. unfold fprintf, emit. cbn [fst snd w_trace].
    rewrite Hi, Hb, <- !app_assoc. eexists. split; [reflexivity|].
    repeat split; trivial.
  - destruct (main_unfold E addr fuel w Hfd) as (w2 & Htr2 & _ & _ & Hm).
    fold fd in Hm.
    destruct (while_loop_facts E fd (fun _ => negb (1 =? 0)) fuel 0 w2)
      as (levs & Hl & Hf).
    destruct (while_true_run E fd (fun _ => negb (1 =? 0)) fuel
                (fun _ => eq_refl) 0 w2) as (_ & levs' & Hl' & Hn & _).
    rewrite Hl in Hl'. apply app_inv_head in Hl'. subst levs'.
    exists levs. rewrite Hm, Hl, Htr2, Hi, Hb, <- !app_assoc.
    split; [reflexivity|]. auto 10.
Qed.

(** ** What [main] shows *)

(** The rows are numbered from 1 on, one by one (below [2^31] passes,
    where [sample_count] does not overflow). *)
Lemma while_row_indices E fd cond fuel :
  (forall s, cond s = true) -> forall sc w,
  0 <= sc -> sc + Z.of_nat fuel < 2 ^ 31 ->
  exists evs,
    w_trace (snd (while_ fuel cond (loop_body E fd) sc w)) = w_trace w ++ evs /\
    map row_index (rows evs)
    = map (fun k => Some (sc + Z.of_nat k)) (seq 1 fuel).
Proof.
  intros Hcond. induction fuel as [|fuel IH]; intros sc w Hsc Hlt.
  - cbn [while_]. rewrite Hcond. exists []. rewrite app_nil_r. auto.
  - cbn [while_]. rewrite Hcond. unfold mbind, M_bind.
    destruct (loop_body_spec E fd sc w)
      as (Hsc' & evs1 & row & pc & tc & Htr1 & Hrow1 & _ & _ & Hcells & _).
    destruct (loop_body E fd sc w) as [sc1 w1]. cbn [fst snd] in *.
    rewrite to_int_small in * by lia. subst sc1.
    destruct (IH (sc + 1) w1 ltac:(lia) ltac:(lia)) as (evs2 & Htr2 & Hidx).
    exists (evs1 ++ evs2). rewrite Htr2, Htr1, <- app_assoc.
    split; [reflexivity|].
    unfold rows in *. rewrite List.filter_app, map_app, Hrow1, Hidx.
    cbn [map seq app]. unfold row_index at 1. rewrite Hcells.
    change (Z.of_nat 1) with 1.
    rewrite <- (seq_shift fuel 1), map_map. f_equal.
    apply map_ext. intros k. f_equal. lia.
Qed.

Lemma main_rows addr ievs levs :
  rows ievs = [] ->
  rows (banner addr ++ ievs ++ table_header ++ levs) = rows levs.
Proof.
  intros Hi. destruct (print_sensor_info_run addr world0) as (_ & Hb & _).
  unfold rows in *. rewrite !List.filter_app, Hb, Hi. reflexivity.
Qed.

(** Once [init_i2c] has succeeded, the rows [main] prints carry the sample
    indices 1, 2, 3, ... in this order, for any number of passes below
    [2^31]. *)
Theorem rows_numbered_from_one E addr fuel w :
  0 <= fst (init_i2c E I2C_BUS addr (snd (print_sensor_info addr w))) ->
  Z.of_nat fuel < 2 ^ 31 ->
  exists evs,
    w_trace (snd (main E addr fuel w)) = w_trace w ++ evs /\
    map row_index (rows evs) = map (fun k => Some (Z.of_nat k)) (seq 1 fuel).
Proof.
  intros Hfd Hfuel. apply Z.ltb_ge in Hfd.
  destruct (main_unfold E addr fuel w Hfd) as (w2 & Htr2 & _ & _ & Hm).
  destruct (print_sensor_info_run addr w) as (Hb & _).
  destruct (init_i2c_events E I2C_BUS addr (snd (print_sensor_info addr w)))
    as (ievs & Hi & Hir & _).
  destruct (while_row_indices E
              (fst (init_i2c E I2C_BUS addr (snd (print_sensor_info addr w))))
              (fun _ => negb (1 =? 0)) fuel (fun _ => eq_refl) 0 w2
              ltac:(lia) ltac:(lia)) as (levs & Hl & Hidx).
  exists (banner addr ++ ievs ++ table_header ++ levs).
  rewrite Hm, Hl, Htr2, Hi, Hb, <- !app_assoc. split; [reflexivity|].
  rewrite (main_rows addr ievs levs Hir), Hidx.
  apply map_ext. intros k. reflexivity.
Qed.

Lemma rows_numbered_from_one_witness :
  exists evs,
    w_trace (snd (main (env_steady 3 sample_bytes) 99 3 world0))
    = w_trace world0 ++ evs /\
    map row_index (rows evs) = map (fun k => Some (Z.of_nat k)) (seq 1 3).
Proof.
  apply (rows_numbered_from_one (env_steady 3 sample_bytes) 99 3 world0).
  - vm_compute. discriminate.
  - reflexivity.
Defined.

(** What reaches [stdout]: the banner; then, when [init_i2c] succeeds, the
    four header lines and after them the rows and nothing but the rows.
    The messages of failed transfers go to [stderr]. *)
Theorem stdout_is_banner_header_rows E addr fuel w :
  let fd := fst (init_i2c E I2C_BUS addr (snd (print_sensor_info addr w))) in
  exists evs,
    w_trace (snd (main E addr fuel w)) = w_trace w ++ evs /\
    List.filter is_stdout evs
    = banner addr ++ (if fd <? 0 then [] else table_header ++ rows evs) /\
    rows (banner addr ++ table_header) = [].
Proof.
  destruct (main_events E addr fuel w)
    as (ievs & levs & Htr & Hir & Hio & _ & _ & H).
  destruct (print_sensor_info_run addr world0) as (_ & Hb & _ & Hbo & _).
  cbv zeta in *. eexists. split; [exact Htr|]. split; [|reflexivity].
  destruct (_ <? 0).
  - destruct H as (_ & Hlo & _).
    rewrite !List.filter_app, Hbo, Hio, Hlo. reflexivity.
  - destruct H as ((Hlo & _) & _).
    rewrite (main_rows addr ievs levs Hir).
    rewrite !List.filter_app, Hbo, Hio, Hlo. reflexivity.
Qed.

(** The budget of a pass: one pressure command; one temperature command
    when the pressure transfer succeeded and none when it came up short;
    one [sleep(1)], which ends the pass.  Over a run of [main] that got
    past [init_i2c]: as many pressure commands and [sleep(1)] as passes,
    and at most as many temperature commands. *)
Theorem pass_budget E addr fd sc fuel w :
  (exists evs,
     w_trace (snd (loop_body E fd sc w)) = w_trace w ++ evs /\
     count_cmd pressure_cmd evs = 1%nat /\
     count_cmd temperature_cmd evs = (if io_fails E w 9 then 0 else 1)%nat /\
     List.filter is_sleep evs = [ESleep 1] /\
     exists pre, evs = pre ++ [ESleep 1]) /\
  (exists evs,
     w_trace (snd (main E addr fuel w)) = w_trace w ++ evs /\
     if fst (init_i2c E I2C_BUS addr (snd (print_sensor_info addr w))) <? 0
     then List.filter is_write evs = [] /\ List.filter is_sleep evs = []
     else
       count_cmd pressure_cmd evs = fuel /\
       (count_cmd temperature_cmd evs <= fuel)%nat /\
       List.filter is_sleep evs = repeat (ESleep 1) fuel).
Proof.
  split.
  - destruct (loop_body_facts E fd sc w) as (evs & Htr & _ & H).
    exists evs. auto.
  - destruct (main_events E addr fuel w)
      as (ievs & levs & Htr & _ & _ & Hiw & His & H).
    destruct (print_sensor_info_run addr world0) as (_ & _ & _ & _ & Hbw).
    assert (Hbs : List.filter is_sleep (banner addr) = []) by reflexivity.
    cbv zeta in *. eexists. split; [exact Htr|].
    destruct (_ <? 0).
    + destruct H as (_ & _ & Hlw & Hls).
      rewrite !List.filter_app, Hbw, Hbs, Hiw, His, Hlw, Hls. auto.
    + destruct H as ((_ & _ & Hls & Hlp & Hlt) & Hn).
      rewrite !count_cmd_app, !List.filter_app, Hbs, His, Hls, Hn.
      rewrite (count_cmd_quiet pressure_cmd _ Hbw),
        (count_cmd_quiet temperature_cmd _ Hbw),
        (count_cmd_quiet pressure_cmd _ Hiw),
        (count_cmd_quiet temperature_cmd _ Hiw).
      rewrite Hn in Hlp. rewrite Hlp in *.
      change (count_cmd pressure_cmd table_header) with 0%nat.
      change (count_cmd temperature_cmd table_header) with 0%nat.
      change (List.filter is_sleep table_header) with (@nil event).
      cbn [app Nat.add]. auto.
Qed.

(** The only [float] objects [main] ever stores to are [pressure] and
    [temperature]: every other object holds at any time what it held at
    the start, and every store in the log is to one of the two. *)
Theorem main_stores_to_locals_only E addr fuel w :
  (forall q : loc, q <> pressure -> q <> temperature ->
     w_mem (snd (main E addr fuel w)) !! q = w_mem w !! q) /\
  exists st,
    w_stores (snd (main E addr fuel w)) = w_stores w ++ st /\
    Forall (fun x : loc * spec_float =>
              fst x = pressure \/ fst x = temperature) st.
Proof.
  change (only_locals w (snd (main E addr fuel w))).
  destruct (print_sensor_info_frame addr w) as (Hbm & Hbs).
  destruct (init_i2c_frame E I2C_BUS addr (snd (print_sensor_info addr w)))
    as (Him & His).
  destruct (fst (init_i2c E I2C_BUS addr (snd (print_sensor_info addr w))) <? 0)
    eqn:Hfd.
  - unfold main, mbind, M_bind, mret, M_ret.
    destruct (print_sensor_info addr w) as [[] w0]. cbn [fst snd] in *.
    destruct (init_i2c E I2C_BUS addr w0) as [fd w1]. cbn [fst snd] in *.
    rewrite Hfd. unfold fprintf, emit. cbn [fst snd].
    apply only_locals_fields; cbn [w_mem w_stores]; congruence.
  - destruct (main_unfold E addr fuel w Hfd) as (w2 & _ & Hm2 & Hs2 & ->).
    apply (only_locals_trans _ w2).
    + apply only_locals_fields; congruence.
    + apply (while_inv only_locals).
      * apply only_locals_refl.
      * apply only_locals_trans.
      * intros s a. apply loop_body_only_locals.
Qed.

(** ** The conversions as functions of the raw value *)

Lemma byte_values_in n : 0 <= n < 256 -> In n byte_values.
Proof.
  intros Hn. unfold byte_values. apply in_map_iff.
  exists (Z.to_nat n). split; [lia|]. apply in_seq. lia.
Qed.

Lemma temperature_step_all :
  forallb (fun a => forallb (fun b => temperature_step_check (256 * a + b))
                      byte_values) byte_values = true.
Proof. vm_compute. reflexivity. Qed.

Lemma temperature_step n :
  0 <= n < 65535 ->
  (F32.to_Q (temperature_of n) < F32.to_Q (temperature_of (n + 1)))%Q.
Proof.
  intros Hn. pose proof temperature_step_all as H.
  assert (Ha : 0 <= n / 256 < 256)
    by (split; [apply Z.div_pos | apply Z.div_lt_upper_bound]; lia).
  assert (Hb : 0 <= n mod 256 < 256) by (apply Z.mod_pos_bound; lia).
  rewrite forallb_forall in H.
  specialize (H (n / 256) (byte_values_in _ Ha)).
  rewrite forallb_forall in H.
  specialize (H (n mod 256) (byte_values_in _ Hb)).
  rewrite <- Z.div_mod in H by lia.
  unfold temperature_step_check in H.
  replace (n =? 65535) with false in H by (symmetry; apply Z.eqb_neq; lia).
  cbn [orb] in H. apply negb_true_iff in H.
  apply Qnot_le_lt. intros Hle. apply Qle_bool_iff in Hle. congruence.
Qed.

Lemma temperature_increasing n1 n2 :
  0 <= n1 -> n1 < n2 -> n2 <= 65535 ->
  (F32.to_Q (temperature_of n1) < F32.to_Q (temperature_of n2))%Q.
Proof.
  intros H0 Hlt Hhi.
  replace n2 with (n1 + 1 + Z.of_nat (Z.to_nat (n2 - n1 - 1))) in * by lia.
  induction (Z.to_nat (n2 - n1 - 1)) as [|k IH].
  - rewrite Z.add_0_r. apply temperature_step. cbn in Hhi. lia.
  - eapply Qlt_trans; [apply IH; lia|].
    replace (n1 + 1 + Z.of_nat (S k)) with (n1 + 1 + Z.of_nat k + 1) by lia.
    apply temperature_step. lia.
Qed.

Lemma raw_temp_range b0 b1 rest : 0 <= raw_temp (b0 :: b1 :: rest) <= 65535.
Proof.
  rewrite raw_temp_big_endian.
  pose proof (of_byte_range b0). pose proof (of_byte_range b1). lia.
Qed.

(** The temperature conversion is strictly increasing in the raw value, so
    no two raw values give the same temperature; its results lie between
    -40, at raw value 0, and 615.3499755859375, at raw value 65535. *)
Theorem temperature_strictly_increasing b0 b1 rest b0' b1' rest' :
  raw_temp (b0 :: b1 :: rest) < raw_temp (b0' :: b1' :: rest') ->
  (F32.to_Q (decode_temperature (b0 :: b1 :: rest))
   < F32.to_Q (decode_temperature (b0' :: b1' :: rest')))%Q /\
  (- (40) <= F32.to_Q (decode_temperature (b0 :: b1 :: rest)))%Q /\
  (F32.to_Q (decode_temperature (b0' :: b1' :: rest')) <= 5040947 # 8192)%Q.
Proof.
  intros Hlt.
  pose proof (raw_temp_range b0 b1 rest) as Hr.
  pose proof (raw_temp_range b0' b1' rest') as Hr'.
  change (decode_temperature (b0 :: b1 :: rest))
    with (temperature_of (raw_temp (b0 :: b1 :: rest))).
  change (decode_temperature (b0' :: b1' :: rest'))
    with (temperature_of (raw_temp (b0' :: b1' :: rest'))).
  set (n := raw_temp (b0 :: b1 :: rest)) in *.
  set (n' := raw_temp (b0' :: b1' :: rest')) in *.
  split; [apply temperature_increasing; lia|]. split.
  - destruct (Z.eq_dec n 0) as [-> | Hne].
    + vm_compute. discriminate.
    + apply Qlt_le_weak.
      apply (Qle_lt_trans _ (F32.to_Q (temperature_of 0)));
        [vm_compute; discriminate | apply temperature_increasing; lia].
  - destruct (Z.eq_dec n' 65535) as [-> | Hne].
    + vm_compute. discriminate.
    + apply Qlt_le_weak.
      apply (Qlt_le_trans _ (F32.to_Q (temperature_of 65535)));
        [apply temperature_increasing; lia | vm_compute; discriminate].
Qed.

Lemma temperature_strictly_increasing_witness :
  (F32.to_Q (decode_temperature [x0f; x42])
   < F32.to_Q (decode_temperature [x0f; x43]))%Q /\
  (- (40) <= F32.to_Q (decode_temperature [x0f; x42]))%Q /\
  (F32.to_Q (decode_temperature [x0f; x43]) <= 5040947 # 8192)%Q.
Proof.
  apply (temperature_strictly_increasing x0f x42 [] x0f x43 []). reflexivity.
Defined.

Lemma to_Q_scaled m e :
  -30 <= e <= 0 ->
  (F32.to_Q (S754_finite false m e)
   == inject_Z (Zpos m * 2 ^ (30 + e)) / inject_Z (2 ^ 30))%Q.
Proof.
  intros He. cbn [F32.to_Q]. rewrite Qpow2_nonpos by lia.
  assert (HD : 0 < 2 ^ (- e)) by (apply Z.pow_pos_nonneg; lia).
  assert (Hp : 2 ^ 30 = 2 ^ (- e) * 2 ^ (30 + e))
    by (rewrite <- Z.pow_add_r by lia; f_equal; lia).
  assert (HT : 0 < 2 ^ (30 + e)) by (apply Z.pow_pos_nonneg; lia).
  rewrite Hp, !inject_Z_mult. field. split.
  - change 0%Q with (inject_Z 0). rewrite inject_Z_injective. lia.
  - change 0%Q with (inject_Z 0). rewrite inject_Z_injective. lia.
Qed.

(** [(float) n / 100.0f] below 131072: the value scaled by [2^30] is an
    integer within [50 * 2^23 / 100] of [n * 2^30 / 100]. *)
Lemma div_c100_fine n :
  0 < n < 13107200 ->
  exists m e,
    F32.div (F32.of_Z n) F32.c100 = S754_finite false m e /\
    -30 <= e <= 0 /\
    Z.abs (n * 2 ^ 31 - 200 * (Zpos m * 2 ^ (30 + e))) <= 100 * 2 ^ 23.
Proof.
  intros Hn.
  destruct (div_c100_spec n) as (m & e & Hv & Hd & He & Habs).
  { change (2 ^ 24) with 16777216. lia. }
  exists m, e. split; [exact Hv|]. split; [lia|].
  pose proof (Zdigits2_24_bounds m Hd) as Hm.
  assert (HT : 0 < 2 ^ (30 + e)) by (apply Z.pow_pos_nonneg; lia).
  assert (Hp : 2 ^ (1 - e) * 2 ^ (30 + e) = 2 ^ 31)
    by (rewrite <- Z.pow_add_r by lia; f_equal; lia).
  set (T := 2 ^ (30 + e)) in *. set (P := 2 ^ (1 - e)) in *.
  assert (Hs : Z.abs (n * 2 ^ 31 - 200 * (Zpos m * T)) <= 100 * T).
  { rewrite <- Hp.
    replace (n * (P * T) - 200 * (Z.pos m * T))
      with ((n * P - 200 * Z.pos m) * T) by ring.
    rewrite Z.abs_mul, (Z.abs_eq T) by lia.
    apply Z.mul_le_mono_nonneg_r; lia. }
  assert (HmT : 8388608 * T <= Zpos m * T)
    by (apply Z.mul_le_mono_nonneg_r; lia).
  assert (HTle : T <= 2 ^ 23).
  { destruct (Z_le_gt_dec (30 + e) 23) as [Hle|Hgt].
    - subst T. apply Z.pow_le_mono_r; lia.
    - assert (2 ^ 24 <= T) by (subst T; apply Z.pow_le_mono_r; lia).
      change (2 ^ 31) with 2147483648 in *.
      change (2 ^ 24) with 16777216 in *. lia. }
  lia.
Qed.

Lemma pressure_increasing n1 n2 :
  0 <= n1 -> n1 < n2 -> n2 < 13107200 ->
  (F32.to_Q (F32.div (F32.of_Z n1) F32.c100)
   < F32.to_Q (F32.div (F32.of_Z n2) F32.c100))%Q.
Proof.
  intros H0 Hlt Hhi.
  destruct (div_c100_fine n2 ltac:(lia)) as (m2 & e2 & -> & He2 & Ha2).
  assert (HT2 : 0 < 2 ^ (30 + e2)) by (apply Z.pow_pos_nonneg; lia).
  assert (Hc : (0 < inject_Z (2 ^ 30))%Q) by reflexivity.
  destruct (Z.eq_dec n1 0) as [-> | Hne].
  - change (F32.div (F32.of_Z 0) F32.c100) with (S754_zero false).
    rewrite to_Q_scaled by lia. cbn [F32.to_Q].
    apply Qlt_shift_div_l; [exact Hc|]. rewrite Qmult_0_l.
    change 0%Q with (inject_Z 0). rewrite <- Zlt_Qlt. lia.
  - destruct (div_c100_fine n1 ltac:(lia)) as (m1 & e1 & -> & He1 & Ha1).
    rewrite !to_Q_scaled by lia.
    unfold Qdiv. apply Qmult_lt_compat_r; [apply Qinv_lt_0_compat, Hc|].
    rewrite <- Zlt_Qlt.
    change (2 ^ 31) with 2147483648 in *. change (2 ^ 23) with 8388608 in *.
    lia.
Qed.

Lemma raw_pressure_range b0 b1 b2 rest :
  0 <= raw_pressure (b0 :: b1 :: b2 :: rest) < 2 ^ 24.
Proof.
  rewrite raw_pressure_big_endian. change (2 ^ 24) with 16777216.
  pose proof (of_byte_range b0). pose proof (of_byte_range b1).
  pose proof (of_byte_range b2). lia.
Qed.

(** Below raw value 13107200 (131072 hPa, far above what the sensor
    measures) the pressure conversion is strictly increasing: no two raw
    values give the same pressure.  Above it this stops: the raw values
    0xC80001 and 0xC80002 give the same [float], and so do 0xFFFFFC and
    0xFFFFFD. *)
Theorem pressure_strictly_increasing b0 b1 b2 rest b0' b1' b2' rest' :
  raw_pressure (b0 :: b1 :: b2 :: rest)
    < raw_pressure (b0' :: b1' :: b2' :: rest') ->
  raw_pressure (b0' :: b1' :: b2' :: rest') < 13107200 ->
  (F32.to_Q (decode_pressure (b0 :: b1 :: b2 :: rest))
   < F32.to_Q (decode_pressure (b0' :: b1' :: b2' :: rest')))%Q /\
  decode_pressure [xc8; x00; x01] = decode_pressure [xc8; x00; x02] /\
  decode_pressure [xff; xff; xfc] = decode_pressure [xff; xff; xfd].
Proof.
  intros Hlt Hhi.
  pose proof (raw_pressure_range b0 b1 b2 rest) as Hr.
  split; [|split; vm_compute; reflexivity].
  unfold decode_pressure. apply pressure_increasing; lia.
Qed.

Lemma pressure_strictly_increasing_witness :
  (F32.to_Q (decode_pressure [x01; x86; xa0])
   < F32.to_Q (decode_pressure [x01; x86; xa1]))%Q /\
  decode_pressure [xc8; x00; x01] = decode_pressure [xc8; x00; x02] /\
  decode_pressure [xff; xff; xfc] = decode_pressure [xff; xff; xfd].
Proof.
  apply (pressure_strictly_increasing x01 x86 xa0 [] x01 x86 xa1 []);
    reflexivity.
Defined.

Lemma div_c100_whole k :
  0 <= k -> 100 * k < 2 ^ 24 ->
  (F32.to_Q (F32.div (F32.of_Z (100 * k)) F32.c100) == inject_Z k)%Q.
Proof.
  intros H0 Hhi. destruct (Z.eq_dec k 0) as [-> | Hne]; [reflexivity|].
  destruct (div_c100_spec (100 * k) ltac:(lia)) as (m & e & -> & _ & He & Habs).
  assert (HD : 0 < 2 ^ (- e)) by (apply Z.pow_pos_nonneg; lia).
  replace (1 - e) with (Z.succ (- e)) in Habs by lia.
  rewrite Z.pow_succ_r in Habs by lia.
  assert (Hm : Zpos m = k * 2 ^ (- e)).
  { set (D := 2 ^ (- e)) in *.
    assert (Hx : 100 * k * (2 * D) = 200 * (k * D)) by ring.
    rewrite Hx in Habs. clear Hx. set (x := k * D) in *. clearbody x. lia. }
  cbn [F32.to_Q]. rewrite Qpow2_nonpos, Hm, inject_Z_mult by lia.
  field. change 0%Q with (inject_Z 0). rewrite inject_Z_injective. lia.
Qed.

Lemma temperature_whole_all :
  forallb temperature_whole_check (map Z.of_nat (seq 0 656)) = true.
Proof. vm_compute. reflexivity. Qed.

(** Whole units convert without rounding error: a raw pressure of [100 k]
    gives exactly [k] hPa, and a raw temperature of [100 k] gives exactly
    [k - 40] degrees. *)
Theorem whole_units_are_exact (k : Z) :
  (forall b0 b1 b2 rest,
     raw_pressure (b0 :: b1 :: b2 :: rest) = 100 * k ->
     (F32.to_Q (decode_pressure (b0 :: b1 :: b2 :: rest)) == inject_Z k)%Q) /\
  (forall b0 b1 rest,
     raw_temp (b0 :: b1 :: rest) = 100 * k ->
     (F32.to_Q (decode_temperature (b0 :: b1 :: rest))
      == inject_Z (k - 40))%Q).
Proof.
  split.
  - intros b0 b1 b2 rest Hraw.
    pose proof (raw_pressure_range b0 b1 b2 rest) as Hr.
    unfold decode_pressure. rewrite Hraw in *.
    apply div_c100_whole; lia.
  - intros b0 b1 rest Hraw.
    pose proof (raw_temp_range b0 b1 rest) as Hr.
    unfold decode_temperature. rewrite Hraw in *.
    pose proof temperature_whole_all as H. rewrite forallb_forall in H.
    specialize (H k). unfold temperature_whole_check, temperature_of in H.
    apply Qeq_bool_iff, H, in_map_iff.
    exists (Z.to_nat k). split; [lia|]. apply in_seq. lia.
Qed.

Lemma whole_units_are_exact_witness :
  (F32.to_Q (decode_pressure [x01; x86; xa0]) == inject_Z 1000)%Q /\
  (F32.to_Q (decode_temperature [x27; x10]) == inject_Z (100 - 40))%Q.
Proof.
  split.
  - apply (proj1 (whole_units_are_exact 1000) x01 x86 xa0 []). reflexivity.
  - apply (proj2 (whole_units_are_exact 100) x27 x10 []). reflexivity.
Defined.

(** ** One more pass of [main] *)

(** One pass, in full: the value returned, the events, the stores and the
    memory, by the outcome of the two transfers. *)
Lemma loop_body_exact E fd sc w :
  let n := CInt.to_int (sc + 1) in
  let w1 := snd (read_pressure E fd pressure w) in
  let vp := decode_pressure (delivered E w 9) in
  let vt := decode_temperature (delivered E w1 6) in
  let w' := snd (loop_body E fd sc w) in
  fst (loop_body E fd sc w) = n /\
  w_trace w'
  = w_trace w ++ pressure_trace E fd w ++
    (if io_fails E w 9 then [] else temperature_trace E fd w1) ++
    [(if io_fails E w 9 then
        EPrint stdout ("%6d | %13s | %15s" ++ nl)
          [AInt n; AStr "Error"; AStr "Error"]
      else if io_fails E w1 6 then
        EPrint stdout ("%6d | %13.2f | %15s" ++ nl)
          [AInt n; ADouble (Some vp); AStr "Error"]
      else
        EPrint stdout ("%6d | %13.2f | %15.2f" ++ nl)
          [AInt n; ADouble (Some vp); ADouble (Some vt)]);
     ESleep 1] /\
  w_stores w'
  = w_stores w ++
    (if io_fails E w 9 then []
     else (pressure, vp) ::
          (if io_fails E w1 6 then [] else [(temperature, vt)])) /\
  w_mem w'
  = (if io_fails E w 9 then w_mem w
     else if io_fails E w1 6 then <[pressure := vp]> (w_mem w)
     else <[temperature := vt]> (<[pressure := vp]> (w_mem w))).
Proof.
  intros n w1 vp vt w'. subst w'.
  pose proof (read_pressure_io E fd pressure w) as Hp.
  pose proof (read_temperature_io E fd temperature w1) as Ht.
  destruct (transfer_trace_facts pressure_cmd 100000 9
              ("Error sending pressure command: %s" ++ nl)
              ("Error reading pressure data: %s" ++ nl) E fd w)
    as (_ & _ & _ & _ & Htp).
  destruct (transfer_trace_facts temperature_cmd 50000 6
              ("Error sending temperature command: %s" ++ nl)
              ("Error reading temperature data: %s" ++ nl) E fd w1)
    as (_ & _ & _ & _ & Htt).
  specialize (Htp pressure decode_pressure).
  specialize (Htt temperature decode_temperature).
  rewrite <- read_pressure_eq in Htp. rewrite <- read_temperature_eq in Htt.
  fold (pressure_trace E fd w) in Htp. fold (temperature_trace E fd w1) in Htt.
  cbv zeta in Hp, Ht. fold w1 vp in Hp, Htp. fold vt in Ht.
  unfold loop_body. fold n. unfold mbind, M_bind, mret, M_ret.
  clearbody vp vt. subst w1.
  destruct (read_pressure E fd pressure w) as [rp w1].
  cbn [fst snd] in *.
  destruct (io_fails E w 9).
  - destruct Hp as (-> & Hm1 & Hs1). cbn [Z.eqb].
    unfold printf, sleep, emit. cbn [fst snd w_trace w_stores w_mem].
    rewrite Htp, Hs1, Hm1, <- !app_assoc, app_nil_r. cbn [app].
    repeat split; reflexivity.
  - destruct Hp as (-> & Hm1 & Hs1 & _). cbn [Z.eqb].
    destruct (read_temperature E fd temperature w1) as [rt w2].
    cbn [fst snd] in *.
    destruct (io_fails E w1 6).
    + destruct Ht as (-> & Hm2 & Hs2). cbn [Z.eqb].
      unfold printf, sleep, load, emit. cbn [fst snd w_trace w_stores w_mem].
      rewrite Hm2, Hm1, lookup_insert_eq.
      rewrite Htt, Htp, Hs2, Hs1, <- !app_assoc. cbn [app].
      repeat split; reflexivity.
    + destruct Ht as (-> & Hm2 & Hs2 & _). cbn [Z.eqb].
      unfold printf, sleep, load, emit. cbn [fst snd w_trace w_stores w_mem].
      rewrite Hm2, Hm1, lookup_insert_eq.
      rewrite lookup_insert_ne by discriminate. rewrite lookup_insert_eq.
      rewrite Htt, Htp, Hs2, Hs1, <- !app_assoc. cbn [app].
      repeat split; reflexivity.
Qed.

Lemma while_unfold {S : Type} fuel (cond : S -> bool) (body : S -> M S) s :
  while_ (Datatypes.S fuel) cond body s
  = if cond s then (s' ← body s; while_ fuel cond body s') else mret (Some s).
Proof. reflexivity. Qed.

(** The loop with one more pass of fuel is the loop, then one more pass. *)
Lemma while_snoc E fd cond :
  (forall s, cond s = true) -> forall fuel sc w,
  snd (while_ (S fuel) cond (loop_body E fd) sc w)
  = snd (loop_body E fd
           (Nat.iter fuel (fun s => CInt.to_int (s + 1)) sc)
           (snd (while_ fuel cond (loop_body E fd) sc w))).
Proof.
  intros Hcond. induction fuel as [|fuel IH]; intros sc w.
  - cbn [while_ Nat.iter nat_rect]. rewrite Hcond.
    unfold mbind, M_bind, mret, M_ret. cbn [snd].
    destruct (loop_body E fd sc w) as [s1 w1]. rewrite Hcond. reflexivity.
  - rewrite Nat.iter_succ_r.
    rewrite (while_unfold (S fuel) cond _ sc), (while_unfold fuel cond _ sc).
    rewrite Hcond. unfold mbind, M_bind.
    destruct (loop_body_spec E fd sc w) as (Hs1 & _).
    destruct (loop_body E fd sc w) as [s1 w1]. cbn [fst] in Hs1. subst s1.
    apply IH.
Qed.

Lemma sample_count_after_small k :
  Z.of_nat k < 2 ^ 31 -> sample_count_after k = Z.of_nat k.
Proof.
  unfold sample_count_after. induction k as [|k IH]; intros Hk; [reflexivity|].
  rewrite Nat.iter_succ, IH by lia. rewrite to_int_small by lia. lia.
Qed.

(** [main] past [init_i2c]: it has not returned, and its world is that of
    the loop run from [loop_entry]. *)
Lemma main_loop_entry E addr fuel w :
  let w0 := snd (print_sensor_info addr w) in
  let fd := fst (init_i2c E I2C_BUS addr w0) in
  let w1 := snd (init_i2c E I2C_BUS addr w0) in
  (fd <? 0) = false ->
  fst (main E addr fuel w) = None /\
  snd (main E addr fuel w)
  = snd (while_ fuel (fun _ => negb (1 =? 0)) (loop_body E fd) 0
           (loop_entry w1)).
Proof.
  cbv zeta. intros Hfd. unfold main, mbind, M_bind, mret, M_ret.
  destruct (print_sensor_info addr w) as [[] w0]. cbn [fst snd] in *.
  destruct (init_i2c E I2C_BUS addr w0) as [fd w1]. cbn [fst snd] in *.
  rewrite Hfd.
  unfold loop_entry, printf, emit, mbind, M_bind. cbn [fst snd].
  match goal with
  | |- context [while_ fuel ?c ?b ?s ?W] =>
      destruct (while_true_run E fd c fuel (fun _ => eq_refl) s W) as (Hres & _);
      destruct (while_ fuel c b s W) as [r w3]
  end.
  cbn [fst snd] in *. subst r. split; reflexivity.
Qed.

Lemma main_next_pass E addr fuel w :
  let fd := fst (init_i2c E I2C_BUS addr (snd (print_sensor_info addr w))) in
  (fd <? 0) = false ->
  fst (main E addr fuel w) = None /\ fst (main E addr (S fuel) w) = None /\
  snd (main E addr (S fuel) w)
  = snd (loop_body E fd (sample_count_after fuel) (snd (main E addr fuel w))).
Proof.
  cbv zeta. intros Hfd.
  destruct (main_loop_entry E addr fuel w Hfd) as (Hr & Hw).
  destruct (main_loop_entry E addr (S fuel) w Hfd) as (Hr' & Hw').
  split; [exact Hr|]. split; [exact Hr'|].
  rewrite Hw', Hw. apply (while_snoc E _ _ (fun _ => eq_refl)).
Qed.

Lemma transfer_trace_shape cmd delay count msg_w msg_r E fd w :
  exists tl,
    transfer_trace cmd delay count msg_w msg_r E fd w = EWrite fd cmd :: tl /\
    List.filter is_stdout tl = [] /\ List.filter is_close tl = [].
Proof.
  unfold transfer_trace.
  destruct (short_write E w); [|destruct (short_read E w count)];
    eexists; repeat split; reflexivity.
Qed.

(** C3: [main], once [init_i2c] has succeeded, is still running after any
    number of passes, and one more pass of fuel adds exactly this to what
    it has done: the pressure command is sent, whatever the earlier passes
    met; nothing but one row reaches [stdout] and no handle is closed; the
    row ends the pass, followed by [sleep(1)].  The row is, when the
    pressure transfer comes up short, [printf("%6d | %13s | %15s\n")] of
    the sample index and twice the string "Error"; when only the
    temperature transfer comes up short, [printf("%6d | %13.2f | %15s\n")]
    of the index, the pressure just converted and the string "Error";
    otherwise the row of the two values. *)
Theorem per_sample_failure_reported E addr fuel w :
  0 <= fst (init_i2c E I2C_BUS addr (snd (print_sensor_info addr w))) ->
  let fd := fst (init_i2c E I2C_BUS addr (snd (print_sensor_info addr w))) in
  let wk := snd (main E addr fuel w) in
  let w1 := snd (read_pressure E fd pressure wk) in
  let n := sample_count_after (S fuel) in
  fst (main E addr fuel w) = None /\ fst (main E addr (S fuel) w) = None /\
  (Z.of_nat (S fuel) < 2 ^ 31 -> n = Z.of_nat (S fuel)) /\
  exists mid,
    w_trace (snd (main E addr (S fuel) w))
    = w_trace wk ++ EWrite fd [x48; xa3; x00] :: mid ++
      [(if io_fails E wk 9 then
          EPrint stdout ("%6d | %13s | %15s" ++ nl)
            [AInt n; AStr "Error"; AStr "Error"]
        else if io_fails E w1 6 then
          EPrint stdout ("%6d | %13.2f | %15s" ++ nl)
            [AInt n; ADouble (Some (decode_pressure (delivered E wk 9)));
             AStr "Error"]
        else
          EPrint stdout ("%6d | %13.2f | %15.2f" ++ nl)
            [AInt n; ADouble (Some (decode_pressure (delivered E wk 9)));
             ADouble (Some (decode_temperature (delivered E w1 6)))]);
       ESleep 1] /\
    List.filter is_stdout mid = [] /\ List.filter is_close mid = [].
Proof.
  intros Hfd fd wk w1 n. apply Z.ltb_ge in Hfd.
  destruct (main_next_pass E addr fuel w Hfd) as (Hr & Hr' & Hw).
  split; [exact Hr|]. split; [exact Hr'|].
  split; [apply sample_count_after_small|].
  destruct (loop_body_exact E fd (sample_count_after fuel) wk)
    as (_ & Htr & _).
  fold fd wk in Hw. rewrite Hw. cbv zeta in Htr. fold w1 in Htr.
  change (CInt.to_int (sample_count_after fuel + 1)) with n in Htr.
  destruct (transfer_trace_shape pressure_cmd 100000 9
              ("Error sending pressure command: %s" ++ nl)
              ("Error reading pressure data: %s" ++ nl) E fd wk)
    as (ptl & Hp & Hpo & Hpc).
  destruct (transfer_trace_shape temperature_cmd 50000 6
              ("Error sending temperature command: %s" ++ nl)
              ("Error reading temperature data: %s" ++ nl) E fd w1)
    as (ttl & Ht & Hto & Htc).
  fold (pressure_trace E fd wk) in Hp. fold (temperature_trace E fd w1) in Ht.
  rewrite Hp, Ht in Htr.
  exists (ptl ++ (if io_fails E wk 9 then []
                  else EWrite fd temperature_cmd :: ttl)).
  split.
  - rewrite Htr. cbn [app]. rewrite <- !app_assoc. reflexivity.
  - rewrite !List.filter_app, Hpo, Hpc.
    destruct (io_fails E wk 9); cbn [List.filter is_stdout is_close app];
      auto.
Qed.

Lemma per_sample_failure_reported_witness :
  fst (main (env_steady 3 [x01; x02]) 99 2 world0) = None /\
  exists mid,
    w_trace (snd (main (env_steady 3 [x01; x02]) 99 2 world0))
    = w_trace (snd (main (env_steady 3 [x01; x02]) 99 1 world0)) ++
      EWrite 3 [x48; xa3; x00] :: mid ++
      [EPrint stdout ("%6d | %13s | %15s" ++ nl)
         [AInt 2; AStr "Error"; AStr "Error"];
       ESleep 1].
Proof.
  destruct (per_sample_failure_reported (env_steady 3 [x01; x02]) 99 1 world0)
    as (_ & Hr & _ & mid & Htr & _).
  - vm_compute. discriminate.
  - split; [exact Hr|]. exists mid. exact Htr.
Defined.

(** What a row shows was stored in the very pass that prints it.  One more
    pass of [main] adds one row; where a column of that row holds a number,
    the number is in the stores the pass added to the log, as a store to
    the object of that column ([pressure], [temperature]), and it is what
    that object holds when the pass ends.  So no row shows an object that
    was never written, nor one left over from an earlier pass. *)
Theorem rows_show_written_values E addr fuel w :
  0 <= fst (init_i2c E I2C_BUS addr (snd (print_sensor_info addr w))) ->
  let wk := snd (main E addr fuel w) in
  let wk' := snd (main E addr (S fuel) w) in
  exists evs st row pc tc,
    w_trace wk' = w_trace wk ++ evs /\ w_stores wk' = w_stores wk ++ st /\
    rows evs = [row] /\
    row_cells row = Some (AInt (sample_count_after (S fuel)), pc, tc) /\
    (forall v, pc = ADouble v ->
       exists x, v = Some x /\ In (pressure, x) st /\
                 w_mem wk' !! pressure = Some x) /\
    (forall v, tc = ADouble v ->
       exists x, v = Some x /\ In (temperature, x) st /\
                 w_mem wk' !! temperature = Some x).
Proof.
  intros Hfd wk wk'. apply Z.ltb_ge in Hfd.
  destruct (main_next_pass E addr fuel w Hfd) as (_ & _ & Hw).
  set (fd := fst (init_i2c E I2C_BUS addr (snd (print_sensor_info addr w)))) in *.
  fold wk wk' in Hw.
  destruct (loop_body_exact E fd (sample_count_after fuel) wk)
    as (_ & Htr & Hst & Hmem).
  destruct (loop_body_spec E fd (sample_count_after fuel) wk)
    as (_ & evs & row & pc & tc & Htr' & Hrows & _ & _ & Hcells & Hcase).
  cbv zeta in *. rewrite <- Hw in *.
  set (w1 := snd (read_pressure E fd pressure wk)) in *.
  exists evs. eexists. exists row, pc, tc.
  split; [exact Htr'|]. split; [exact Hst|]. split; [exact Hrows|].
  split; [exact Hcells|].
  rewrite Hmem. clear Htr Htr' Hst Hmem Hrows Hcells.
  destruct (io_fails E wk 9).
  - destruct Hcase as (-> & ->). split; intros v Hv; discriminate.
  - destruct Hcase as (-> & Hcase). destruct (io_fails E w1 6).
    + subst tc. split; intros v Hv; [|discriminate].
      injection Hv as <-. eexists. split; [reflexivity|].
      split; [left; reflexivity | apply lookup_insert_eq].
    + subst tc. split; intros v Hv; injection Hv as <-;
        (eexists; split; [reflexivity|]); split.
      * left; reflexivity.
      * rewrite lookup_insert_ne by discriminate. apply lookup_insert_eq.
      * right; left; reflexivity.
      * apply lookup_insert_eq.
Qed.

Lemma rows_show_written_values_witness :
  exists evs st row pc tc,
    w_trace (snd (main (env_steady 3 sample_bytes) 99 2 world0))
    = w_trace (snd (main (env_steady 3 sample_bytes) 99 1 world0)) ++ evs /\
    w_stores (snd (main (env_steady 3 sample_bytes) 99 2 world0))
    = w_stores (snd (main (env_steady 3 sample_bytes) 99 1 world0)) ++ st /\
    rows evs = [row] /\
    row_cells row = Some (AInt (sample_count_after 2), pc, tc) /\
    (forall v, pc = ADouble v ->
       exists x, v = Some x /\ In (pressure, x) st /\
                 w_mem (snd (main (env_steady 3 sample_bytes) 99 2 world0))
                   !! pressure = Some x) /\
    (forall v, tc = ADouble v ->
       exists x, v = Some x /\ In (temperature, x) st /\
                 w_mem (snd (main (env_steady 3 sample_bytes) 99 2 world0))
                   !! temperature = Some x).
Proof.
  apply (rows_show_written_values (env_steady 3 sample_bytes) 99 1 world0).
  vm_compute. discriminate.
Defined.
